(** * Dimensional Change Card Sort: trial generation, response scoring, summary

    A shallow embedding of [src/index.ts].

    Conventions of the embedding.
    - A JavaScript [number] that is a clock reading or a value drawn from
      [Math.random] is a rational [Q].  Where the source divides and
      multiplies ([createResults]) the type [number] below adds the
      non-finite values, and every result is rounded to the nearest double
      as IEEE 754 arithmetic does.
    - [===] on strings is [String.eqb].
    - A thrown [TypeError] is [None] in the generator; in the click
      listener it ends the listener where it is thrown. *)

From Stdlib Require Import String Ascii List Bool Arith ZArith QArith Qround Lia Lqa.
From Stdlib Require Import Qabs Qpower DecimalString Permutation.
From Stdlib Require SpecFloat.
Import ListNotations.

Local Open Scope string_scope.
Local Open Scope list_scope.

(** ** Types *)

Record Stimulus := mkStimulus {
  img : string;
  name : string;
  shape : string;
  color : string
}.

(** [correct] is a [number] in the source; every trial of the program holds
    0 or 1 there, other integers are kept so that the click handler's
    [cards[trial.correct]] can be followed out of range.  [dimension] is
    the optional field. *)
Record Trial := mkTrial {
  target : Stimulus;
  left : Stimulus;
  right : Stimulus;
  correct : Z;
  dimension : option string
}.

Record GameState := mkGameState {
  audio_enabled : bool;
  current_phase : string;
  trials_completed : nat
}.

(** ** Stimuli definitions *)

Module STIMULI.
Definition brownRabbit := mkStimulus "assets/brown_rabbit.svg" "brown rabbit" "rabbit" "brown".
Definition whiteRabbit := mkStimulus "assets/white_rabbit.svg" "white rabbit" "rabbit" "white".
Definition brownBoat := mkStimulus "assets/brown_boat.svg" "brown boat" "boat" "brown".
Definition whiteBoat := mkStimulus "assets/white_boat.svg" "white boat" "boat" "white".
Definition blueBall := mkStimulus "assets/blue_ball.svg" "blue ball" "ball" "blue".
Definition orangeTruck := mkStimulus "assets/orange_truck.svg" "orange truck" "truck" "orange".
Definition blueTruck := mkStimulus "assets/blue_truck.svg" "blue truck" "truck" "blue".
Definition orangeBall := mkStimulus "assets/orange_ball.svg" "orange ball" "ball" "orange".
End STIMULI.

(** ** Internal state *)

Definition resetState : GameState := mkGameState false "" 0.

(** ** Pre-defined trials *)

Definition fixedTrial (t l r : Stimulus) (c : Z) : Trial := mkTrial t l r c None.

Definition COLOR_PRACTICE_TRIALS : list Trial :=
  [ fixedTrial STIMULI.brownRabbit STIMULI.brownBoat STIMULI.whiteRabbit 0;
    fixedTrial STIMULI.whiteBoat STIMULI.brownBoat STIMULI.whiteRabbit 1;
    fixedTrial STIMULI.brownBoat STIMULI.brownBoat STIMULI.whiteRabbit 0;
    fixedTrial STIMULI.whiteRabbit STIMULI.brownBoat STIMULI.whiteRabbit 1;
    fixedTrial STIMULI.brownRabbit STIMULI.whiteRabbit STIMULI.brownBoat 1 ].

Definition COLOR_TEST_TRIALS : list Trial :=
  [ fixedTrial STIMULI.blueTruck STIMULI.blueBall STIMULI.orangeTruck 0;
    fixedTrial STIMULI.orangeBall STIMULI.blueBall STIMULI.orangeTruck 1;
    fixedTrial STIMULI.blueBall STIMULI.orangeTruck STIMULI.blueBall 1;
    fixedTrial STIMULI.orangeTruck STIMULI.blueBall STIMULI.orangeTruck 1;
    fixedTrial STIMULI.blueTruck STIMULI.orangeTruck STIMULI.blueBall 1 ].

Definition SHAPE_TEST_TRIALS : list Trial :=
  [ fixedTrial STIMULI.orangeBall STIMULI.blueBall STIMULI.orangeTruck 0;
    fixedTrial STIMULI.blueTruck STIMULI.blueBall STIMULI.orangeTruck 1;
    fixedTrial STIMULI.orangeTruck STIMULI.orangeTruck STIMULI.blueBall 0;
    fixedTrial STIMULI.blueBall STIMULI.orangeTruck STIMULI.blueBall 1;
    fixedTrial STIMULI.blueTruck STIMULI.blueBall STIMULI.orangeTruck 1 ].

(** ** The mixed-block generator *)

(** [arr[Math.floor(x)]]: [undefined] below zero and past the end. *)
Definition lookup {A : Type} (arr : list A) (z : Z) : option A :=
  if (z <? 0)%Z then None else nth_error arr (Z.to_nat z).

Definition testStimuli : list Stimulus :=
  [STIMULI.blueBall; STIMULI.orangeTruck; STIMULI.blueTruck; STIMULI.orangeBall].

(** [i % 2 === 0 ? 'color' : 'shape'] *)
Definition dimensionOf (i : nat) : string :=
  if Nat.eqb (i mod 2) 0 then "color" else "shape".

(** The pair [choices[0], choices[1]] after the optional [reverse()]. *)
Definition choicesFor (swapDraw : Q) : Stimulus * Stimulus :=
  if Qlt_le_dec (1 # 2) swapDraw
  then (STIMULI.orangeTruck, STIMULI.blueBall)
  else (STIMULI.blueBall, STIMULI.orangeTruck).

Section Generator.

(** [random k] is what the [k]-th call of [Math.random] made by one run of
    the generator returns (calls are counted from 0). *)
Variable random : nat -> Q.

(** One pass of the loop body for index [i], when [k] draws were taken
    before it.  [None] is the [TypeError] of reading [.color] or [.shape]
    of an [undefined] target. *)
Definition mixedTrial (i k : nat) : option Trial :=
  let dimension := dimensionOf i in
  let target := lookup testStimuli (Qfloor (random k * inject_Z (Z.of_nat (length testStimuli)))) in
  let choices := choicesFor (random (S k)) in
  match target with
  | None => None
  | Some target =>
      let correct :=
        if dimension =? "color"
        then (if color (fst choices) =? color target then 0%Z else 1%Z)
        else (if shape (fst choices) =? shape target then 0%Z else 1%Z) in
      Some {| target := target;
              left := fst choices;
              right := snd choices;
              correct := correct;
              dimension := Some dimension |}
  end.

(** The [for] loop with [todo] passes left, at index [i], after [k] draws;
    [mixedTrials] is the array built so far. *)
Fixpoint generateLoop (todo i k : nat) (mixedTrials : list Trial)
  : option (list Trial) :=
  match todo with
  | O => Some mixedTrials
  | S todo' =>
      match mixedTrial i k with
      | None => None
      | Some t => generateLoop todo' (S i) (S (S k)) (mixedTrials ++ [t])
      end
  end.

Definition generateMixedTrials (numTrials : nat) : option (list Trial) :=
  generateLoop numTrials 0 0 [].

End Generator.

(** The contract of [Math.random]: every draw lies in [0, 1). *)
Definition unitDraws (random : nat -> Q) : Prop :=
  forall k, 0 <= random k /\ random k < 1.

(** A source that returns one half at every call. *)
Definition alwaysHalf : nat -> Q := fun _ => 1 # 2.

(** ** The page a trial runs on *)

(** The element [#feedback]. *)
Record FeedbackDiv := mkFeedbackDiv {
  textContent : string;
  className : string
}.

(** What [setupTrial] reads of the document: the class lists of the elements
    matching [.dccs-choice-card], in document order, and the element
    [#feedback] when there is one. *)
Record Dom := mkDom {
  cards : list (list string);
  feedbackDiv : option FeedbackDiv
}.

(** The document shown from the markup [createTrialStimulus] returns, as far
    as [setupTrial] queries it: two choice cards ([data-choice] 0 and 1)
    and an empty [#feedback].  The cue, the images and their [alt] texts
    are not queried and are left out.  The markup interpolates the names,
    image paths and cue word as they are; this is the document it parses to
    when they hold no markup characters, as those of [STIMULI] and the cues
    COLOR and SHAPE do not. *)
Definition createTrialStimulus (target left right : Stimulus) (cueWord : string) : Dom :=
  {| cards := [["dccs-choice-card"]; ["dccs-choice-card"]];
     feedbackDiv := Some (mkFeedbackDiv "" "dccs-feedback") |}.

(** [classList.add(c)] *)
Definition classList_add (c : string) (classes : list string) : list string :=
  if existsb (String.eqb c) classes then classes else classes ++ [c].

(** [cards[z].classList.add(c)]; [None] when [cards[z]] is [undefined]. *)
Fixpoint addClassAt (c : string) (n : nat) (cs : list (list string))
  : option (list (list string)) :=
  match cs, n with
  | [], _ => None
  | x :: r, O => Some (classList_add c x :: r)
  | x :: r, S n' => option_map (cons x) (addClassAt c n' r)
  end.

Definition highlight (cs : list (list string)) (z : Z) : option (list (list string)) :=
  if (z <? 0)%Z then None else addClassAt "highlight" (Z.to_nat z) cs.

(** [toUpperCase] on the letters a to z; other characters are kept.  This
    is the method's result on ASCII strings; [createTimeline] passes it the
    dimensions ['color'] and ['shape'] only. *)
Definition upperAscii (c : ascii) : ascii :=
  let n := nat_of_ascii c in
  if (97 <=? n)%nat && (n <=? 122)%nat then ascii_of_nat (n - 32) else c.

Fixpoint toUpperCase (s : string) : string :=
  match s with
  | EmptyString => EmptyString
  | String c r => String (upperAscii c) (toUpperCase r)
  end.

(** The payload handed to [jsPsych.finishTrial]. *)
Module TrialData.
Record t := mk {
  response : nat;
  correct : bool;
  rt : Q
}.
End TrialData.

(** What a pending [setTimeout] will run. *)
Inductive Callback :=
| FinishTrial (cardIndex : nat) (correct : bool)
| Prompt.

Record Timer := mkTimer {
  due : Q;
  callback : Callback
}.

(** Everything the handlers of one [setupTrial] call can touch. [spoken] is
    the texts handed to [speechSynthesis.speak], [finished] the payloads
    handed to [jsPsych.finishTrial], both oldest first; [timers] the
    scheduled callbacks that have not run yet. *)
Record Page := mkPage {
  responded : bool;
  dom : Dom;
  spoken : list string;
  finished : list TrialData.t;
  timers : list Timer
}.

Definition set_responded (b : bool) (p : Page) : Page :=
  mkPage b (dom p) (spoken p) (finished p) (timers p).
Definition set_dom (d : Dom) (p : Page) : Page :=
  mkPage (responded p) d (spoken p) (finished p) (timers p).
Definition set_spoken (l : list string) (p : Page) : Page :=
  mkPage (responded p) (dom p) l (finished p) (timers p).
Definition finishTrial (d : TrialData.t) (p : Page) : Page :=
  mkPage (responded p) (dom p) (spoken p) (finished p ++ [d]) (timers p).
Definition setTimeout (cb : Callback) (at_ : Q) (p : Page) : Page :=
  mkPage (responded p) (dom p) (spoken p) (finished p) (timers p ++ [mkTimer at_ cb]).
Definition set_timers (l : list Timer) (p : Page) : Page :=
  mkPage (responded p) (dom p) (spoken p) (finished p) l.

Definition set_feedback (text cls : string) (p : Page) : Page :=
  set_dom (mkDom (cards (dom p)) (Some (mkFeedbackDiv text cls))) p.
Definition set_cards (cs : list (list string)) (p : Page) : Page :=
  set_dom (mkDom cs (feedbackDiv (dom p))) p.

(** What the host and the browser deliver to a set-up trial: a click on the
    card with index [cardIndex], or the run of the [k]-th pending timer.
    [now] is the clock, as [performance.now()] reads it, when the handler
    runs, [currentTrial] whether [jsPsych.getCurrentTrial()] is non-null
    then. *)
Inductive Event :=
| Click (cardIndex : nat) (now : Q)
| Fire (k : nat) (now : Q) (currentTrial : bool).

(** Takes the [k]-th pending timer out of the list. *)
Fixpoint takeTimer (k : nat) (l : list Timer) : option (Timer * list Timer) :=
  match l, k with
  | [], _ => None
  | x :: r, O => Some (x, r)
  | x :: r, S k' =>
      match takeTimer k' r with
      | Some (y, r') => Some (y, x :: r')
      | None => None
      end
  end.

Section SetupTrial.

(** The module-level [state], and whether [window] has [speechSynthesis]. *)
Variable state : GameState.
Variable hasSpeech : bool.

Definition playAudio (text : string) (p : Page) : Page :=
  if audio_enabled state && hasSpeech
  then set_spoken (spoken p ++ [text]) p
  else p.

Variable trial : Trial.
Variable phase : string.
Variable trialNum : nat.
Variable dimension' : string.
Variable withFeedback : bool.

(** The reading of [performance.now()] taken by [setupTrial]. *)
Variable startTime : Q.

(** The click listener of card [cardIndex].  In [shown], [inl] is the
    page when the feedback block ran to its end and [inr] the page at the
    point where [cards[trial.correct]] was [undefined] and the listener
    stopped with a [TypeError]: nothing is scheduled then. *)
Definition onClick (cardIndex : nat) (now : Q) (p : Page) : Page :=
  if responded p then p else
  let p := set_responded true p in
  let isCorrect := (Z.of_nat cardIndex =? correct trial)%Z in
  if withFeedback then
    let shown : Page + Page :=
      match feedbackDiv (dom p) with
      | Some _ =>
          if isCorrect then
            inl (playAudio "That's right!"
                   (set_feedback "That's right!" "dccs-feedback correct" p))
          else
            let p := playAudio "This is the same color, so you should choose this picture."
                       (set_feedback "This is the same color." "dccs-feedback incorrect" p) in
            match highlight (cards (dom p)) (correct trial) with
            | Some cs => inl (set_cards cs p)
            | None => inr p
            end
      | None => inl p
      end in
    match shown with
    | inl p => setTimeout (FinishTrial cardIndex isCorrect)
                 (now + (if isCorrect then 1500 else 2500)) p
    | inr p => p
    end
  else
    finishTrial (TrialData.mk cardIndex isCorrect (now - startTime)) p.

(** The body of a scheduled callback. *)
Definition runCallback (cb : Callback) (now : Q) (currentTrial : bool) (p : Page) : Page :=
  match cb with
  | FinishTrial cardIndex correct =>
      finishTrial (TrialData.mk cardIndex correct (now - startTime)) p
  | Prompt =>
      if negb (responded p) && currentTrial
      then playAudio "Choose one of the pictures." p
      else p
  end.

Definition setupTrial (document : Dom) : Page :=
  let p := playAudio (toUpperCase dimension') (mkPage false document [] [] []) in
  if negb withFeedback
  then setTimeout Prompt (startTime + 5000) p
  else p.

(** One event. A click on a card that is not there, a timer that is not
    pending and a timer whose delay has not passed do not happen. *)
Definition step (p : Page) (e : Event) : Page :=
  match e with
  | Click cardIndex now =>
      if (cardIndex <? length (cards (dom p)))%nat then onClick cardIndex now p else p
  | Fire k now currentTrial =>
      match takeTimer k (timers p) with
      | Some (tm, rest) =>
          if Qle_bool (due tm) now
          then runCallback (callback tm) now currentTrial (set_timers rest p)
          else p
      | None => p
      end
  end.

Definition run (document : Dom) (events : list Event) : Page :=
  fold_left step events (setupTrial document).

End SetupTrial.

(** The [stimulus] of a trial screen. *)
Definition cueOf (t : Trial) (cueWord : string) : Dom :=
  createTrialStimulus (target t) (left t) (right t) cueWord.

(** The [on_load] hooks of [createPracticeTrial] and [createTestTrial]: the
    trial is set up on the document of its own stimulus, with feedback for
    practice and without for the tests. *)
Definition createPracticeTrial (state : GameState) (hasSpeech : bool)
    (trial : Trial) (index : nat) (startTime : Q) : Page :=
  setupTrial state hasSpeech "color" true startTime (cueOf trial "COLOR").

Definition createTestTrial (state : GameState) (hasSpeech : bool)
    (trial : Trial) (phase dimension : string) (index : nat) (startTime : Q) : Page :=
  setupTrial state hasSpeech dimension false startTime
    (cueOf trial (toUpperCase dimension)).

(** ** The summary screen *)

(** A JavaScript number as [createResults] computes with it: the exact
    value of a finite double, or one of the three non-finite values.
    Signed zero is not modelled. *)
Inductive number :=
| Num (q : Q)
| Infinity
| NegInfinity
| NaN.

Definition signed (positive : bool) : number :=
  if positive then Infinity else NegInfinity.

(** The sign of a non-NaN number: [Some true] above zero, [Some false] below,
    [None] at zero. *)
Definition signOf (x : number) : option bool :=
  match x with
  | Num q => if Qeq_bool q 0 then None else Some (negb (Qle_bool q 0))
  | Infinity => Some true
  | NegInfinity => Some false
  | NaN => None
  end.

(** [2^k] *)
Definition pow2 (k : Z) : Q := Qpower 2 k.

(** The [k] with [2^k <= q < 2^(k+1)], for a positive [q]. *)
Definition floorLog2 (q : Q) : Z :=
  let k := (Z.log2 (Qnum q) - Z.log2 (Zpos (Qden q)))%Z in
  if Qle_bool (pow2 k) q then k else (k - 1)%Z.

(** The integer nearest to [r], the even one of two that are equally near. *)
Definition roundHalfEven (r : Q) : Z :=
  let f := Qfloor r in
  match Qcompare (r - inject_Z f) (1 # 2) with
  | Lt => f
  | Gt => (f + 1)%Z
  | Eq => if Z.even f then f else (f + 1)%Z
  end.

(** The double an arithmetic operation returns when its exact result is
    [q]: the nearest number [m * 2^e] with a mantissa [m] of at most 53 bits
    and [e >= -1074] (ties to the even mantissa), and an infinity from
    [2^1024] on. *)
Definition double (q : Q) : number :=
  let q := Qred q in
  let a := Qabs q in
  if Qeq_bool a 0 then Num 0 else
  let e := Z.max (floorLog2 a - 52) (-1074) in
  let r := inject_Z (roundHalfEven (a / pow2 e)) * pow2 e in
  if Qle_bool (pow2 1024) r
  then (if Qle_bool 0 q then Infinity else NegInfinity)
  else Num (if Qle_bool 0 q then r else - r).

(** [x / y] *)
Definition div (x y : number) : number :=
  match x, y with
  | NaN, _ | _, NaN => NaN
  | Num a, Num b =>
      if Qeq_bool b 0
      then match signOf x with Some s => signed s | None => NaN end
      else double (a / b)
  | Num _, _ => Num 0
  | _, Num b =>
      match signOf x with
      | Some s => signed (if Qle_bool 0 b then s else negb s)
      | None => NaN
      end
  | _, _ => NaN
  end.

(** [x * y] *)
Definition mul (x y : number) : number :=
  match x, y with
  | NaN, _ | _, NaN => NaN
  | Num a, Num b => double (a * b)
  | _, _ =>
      match signOf x, signOf y with
      | Some s, Some s' => signed (Bool.eqb s s')
      | _, _ => NaN
      end
  end.

Definition decimal (z : Z) : string := NilZero.string_of_int (Z.to_int z).

(** [x.toFixed(0)]: the integer nearest to the exact value of the double
    [x], the larger one of two that are equally near, on the magnitude of
    [x], with the sign in front.  The exponent notation the method switches
    to from 10^21 on is left out: the accuracies it is applied to stay
    within 0 and 100. *)
Definition toFixed0 (x : number) : string :=
  match x with
  | NaN => "NaN"
  | Infinity => "Infinity"
  | NegInfinity => "-Infinity"
  | Num q =>
      if Qle_bool 0 q
      then decimal (Qfloor (q + (1 # 2)))
      else "-" ++ decimal (Qfloor (- q + (1 # 2)))
  end.

(** A row of [jsPsych.data]: the fields the summary reads, [None] where the
    row has no such field. *)
Module DataRow.
Record t := mk {
  task : option string;
  phase : option string;
  correct : option bool;
  rt : option Q
}.
End DataRow.

(** [DataCollection.filter({task: v})], [filter({phase: v})],
    [filter({correct: true})] and [count()].  A count is the length of an
    array, a whole number below 2^32 and so a double as it stands. *)
Definition filterTask (v : string) (d : list DataRow.t) : list DataRow.t :=
  filter (fun r => match DataRow.task r with Some x => x =? v | None => false end) d.
Definition filterPhase (v : string) (d : list DataRow.t) : list DataRow.t :=
  filter (fun r => match DataRow.phase r with Some x => x =? v | None => false end) d.
Definition filterCorrect (d : list DataRow.t) : list DataRow.t :=
  filter (fun r => match DataRow.correct r with Some true => true | _ => false end) d.
Definition count (d : list DataRow.t) : number :=
  Num (inject_Z (Z.of_nat (length d))).

(** The accuracy column of the table [createResults] renders, as the texts
    of its three cells.  The response-time column is not modelled. *)
Record ResultsTable := mkResultsTable {
  colorCell : string;
  shapeCell : string;
  mixedCell : string
}.

Definition createResults (jsPsychData : list DataRow.t) : ResultsTable :=
  let data := filterTask "dccs" jsPsychData in
  let colorTrials := filterPhase "color_test" data in
  let shapeTrials := filterPhase "shape_test" data in
  let mixedTrials := filterPhase "mixed" data in
  let colorAccuracy := mul (div (count (filterCorrect colorTrials)) (count colorTrials)) (Num 100) in
  let shapeAccuracy := mul (div (count (filterCorrect shapeTrials)) (count shapeTrials)) (Num 100) in
  let mixedAccuracy := mul (div (count (filterCorrect mixedTrials)) (count mixedTrials)) (Num 100) in
  {| colorCell := toFixed0 colorAccuracy ++ "%";
     shapeCell := toFixed0 shapeAccuracy ++ "%";
     mixedCell := toFixed0 mixedAccuracy ++ "%" |}.

(** ** Vocabulary of the statements *)

(** The three summarised phases, the [phase] label of each and its cell. *)
Inductive Phase := ColorTest | ShapeTest | Mixed.

Definition phaseLabel (ph : Phase) : string :=
  match ph with
  | ColorTest => "color_test"
  | ShapeTest => "shape_test"
  | Mixed => "mixed"
  end.

Definition cellOf (ph : Phase) (tbl : ResultsTable) : string :=
  match ph with
  | ColorTest => colorCell tbl
  | ShapeTest => shapeCell tbl
  | Mixed => mixedCell tbl
  end.

(** The recorded results of a phase, and the correct ones among them. *)
Definition recorded (ph : Phase) (jsPsychData : list DataRow.t) : list DataRow.t :=
  filter (fun r =>
            match DataRow.task r, DataRow.phase r with
            | Some t, Some p => (t =? "dccs") && (p =? phaseLabel ph)
            | _, _ => false
            end) jsPsychData.

Definition recordedCorrect (ph : Phase) (jsPsychData : list DataRow.t) : list DataRow.t :=
  filter (fun r => match DataRow.correct r with Some true => true | _ => false end)
         (recorded ph jsPsychData).

(** The attribute of a stimulus a dimension asks to match on. *)
Definition attribute (dim : string) (s : Stimulus) : string :=
  if dim =? "color" then color s else shape s.

Definition sameOn (dim : string) (a b : Stimulus) : bool :=
  attribute dim a =? attribute dim b.

(** A trial is well posed on [dim]: exactly one of [left] and [right] has
    the target's value of the attribute, and [correct] is the index of that
    one (0 for [left], 1 for [right]). *)
Definition wellPosed (dim : string) (t : Trial) : Prop :=
  (sameOn dim (left t) (target t) = true /\
   sameOn dim (right t) (target t) = false /\ correct t = 0%Z)
  \/
  (sameOn dim (left t) (target t) = false /\
   sameOn dim (right t) (target t) = true /\ correct t = 1%Z).

(** The number behind the cell of a phase. *)
Definition accuracy (ph : Phase) (jsPsychData : list DataRow.t) : number :=
  mul (div (count (recordedCorrect ph jsPsychData)) (count (recorded ph jsPsychData)))
      (Num 100).

(** What every pass of the loop body yields. *)
Definition goodTrial (i : nat) (t : Trial) : Prop :=
  dimension t = Some (dimensionOf i) /\ wellPosed (dimensionOf i) t.

(** *** The latch of a set-up trial *)

(** The timers that will report a result. *)
Definition isFinish (tm : Timer) : bool :=
  match callback tm with
  | FinishTrial _ _ => true
  | Prompt => false
  end.

Definition pendingFinish (l : list Timer) : list Timer := filter isFinish l.

(** The first click of a sequence of events that lands on one of the
    [ncards] cards, with the clock at that click. *)
Fixpoint firstClick (ncards : nat) (events : list Event) : option (nat * Q) :=
  match events with
  | [] => None
  | Click i now :: rest =>
      if (i <? ncards)%nat then Some (i, now) else firstClick ncards rest
  | Fire _ _ _ :: rest => firstClick ncards rest
  end.

Definition orElse {A : Type} (a b : option A) : option A :=
  match a with
  | Some _ => a
  | None => b
  end.

(** The delay of the feedback timer. *)
Definition feedbackDelay (isCorrect : bool) : Q := if isCorrect then 1500 else 2500.

Section Latch.

Variable trial : Trial.
Variable withFeedback : bool.
Variable startTime : Q.

(** What a payload must look like once the click [(i, t)] was accepted. *)
Definition payloadOf (i : nat) (t : Q) (d : TrialData.t) : Prop :=
  TrialData.response d = i
  /\ TrialData.correct d = (Z.of_nat i =? correct trial)%Z
  /\ (withFeedback = false -> TrialData.rt d = t - startTime)
  /\ (withFeedback = true ->
      t + feedbackDelay (Z.of_nat i =? correct trial)%Z - startTime <= TrialData.rt d).

Definition timerOf (i : nat) (t : Q) (tm : Timer) : Prop :=
  callback tm = FinishTrial i (Z.of_nat i =? correct trial)%Z
  /\ due tm = t + feedbackDelay (Z.of_nat i =? correct trial)%Z.

(** The invariant of a set-up trial; [accepted] is the click that set the
    latch, when there was one. *)
Definition latched (ncards : nat) (accepted : option (nat * Q)) (p : Page) : Prop :=
  length (cards (dom p)) = ncards
  /\ (withFeedback = false -> pendingFinish (timers p) = [])
  /\ match accepted with
     | None =>
         responded p = false /\ finished p = [] /\ pendingFinish (timers p) = []
     | Some (i, t) =>
         responded p = true
         /\ Forall (payloadOf i t) (finished p)
         /\ Forall (timerOf i t) (pendingFinish (timers p))
         /\ (length (finished p) + length (pendingFinish (timers p)) <= 1)%nat
     end.

End Latch.

(** *** Sample inputs *)

(** The first practice trial, set up at clock 0 on its own document with
    audio off. *)
Definition practice0 : Trial :=
  fixedTrial STIMULI.brownRabbit STIMULI.brownBoat STIMULI.whiteRabbit 0.

Definition practiceRun (events : list Event) : Page :=
  fold_left (step resetState false practice0 true 0) events
    (createPracticeTrial resetState false practice0 0 0).

(** The same trial as a test trial of the colour phase. *)
Definition testRun (events : list Event) : Page :=
  fold_left (step resetState false practice0 false 0) events
    (createTestTrial resetState false practice0 "color_test" "color" 0 0).

(** A shape trial of the mixed kind, set up with feedback and audio on. *)
Definition shapeTrial : Trial :=
  mkTrial STIMULI.blueTruck STIMULI.blueBall STIMULI.orangeTruck 1 (Some "shape").

(** Five mixed results, the fourth of them wrong, among rows of other
    screens. *)
Definition sampleData : list DataRow.t :=
  [ DataRow.mk None None None (Some 1200);
    DataRow.mk (Some "dccs") (Some "mixed") (Some true) (Some 810);
    DataRow.mk (Some "dccs") (Some "mixed") (Some true) (Some 790);
    DataRow.mk (Some "dccs") (Some "color_practice") (Some false) (Some 3100);
    DataRow.mk (Some "dccs") (Some "mixed") (Some true) (Some 905);
    DataRow.mk (Some "dccs") (Some "mixed") (Some false) (Some 1502);
    DataRow.mk (Some "dccs") (Some "mixed") (Some true) (Some 770) ].

(** *** The Standard Library's IEEE 754 operations, for comparison *)

(** Binary64: 53 bits of precision, exponents below 1024. *)
Definition ofZ (z : Z) : SpecFloat.spec_float :=
  SpecFloat.binary_normalize 53 1024 z 0 false.

Definition ofSpecFloat (f : SpecFloat.spec_float) : number :=
  match f with
  | SpecFloat.S754_zero _ => Num 0
  | SpecFloat.S754_infinity s => if s then NegInfinity else Infinity
  | SpecFloat.S754_nan => NaN
  | SpecFloat.S754_finite s m e =>
      Num ((if s then - (1) else 1) * inject_Z (Zpos m) * pow2 e)
  end.

Definition sameNumber (x y : number) : bool :=
  match x, y with
  | Num a, Num b => Qeq_bool a b
  | Infinity, Infinity | NegInfinity, NegInfinity | NaN, NaN => true
  | _, _ => false
  end.

(** [c / t * 100] on counts, as [createResults] computes it and as the
    library's operations do. *)
Definition percent (c t : Z) : number :=
  mul (div (Num (inject_Z c)) (Num (inject_Z t))) (Num 100).

Definition percentSpecFloat (c t : Z) : number :=
  ofSpecFloat (SpecFloat.SFmul 53 1024 (SpecFloat.SFdiv 53 1024 (ofZ c) (ofZ t)) (ofZ 100)).

(** The pairs [(c, t)] with [c <= t <= n]. *)
Definition countPairs (n : nat) : list (Z * Z) :=
  flat_map (fun t => map (fun c => (Z.of_nat c, Z.of_nat t)) (seq 0 (S t))) (seq 0 (S n)).

(** Chains of two operations on integer operands, each first rounded to a
    double: [(a / b) / c], [(a * b) * c], [(a / b) * c] and [(a * b) / c],
    as computed here and by the library. *)
Definition asDouble (z : Z) : number := double (inject_Z z).

Definition chainOurs (abc : Z * Z * Z) : list number :=
  let '(a, b, c) := abc in
  [ div (div (asDouble a) (asDouble b)) (asDouble c);
    mul (mul (asDouble a) (asDouble b)) (asDouble c);
    mul (div (asDouble a) (asDouble b)) (asDouble c);
    div (mul (asDouble a) (asDouble b)) (asDouble c) ].

Definition chainSpecFloat (abc : Z * Z * Z) : list number :=
  let '(a, b, c) := abc in
  let D := SpecFloat.SFdiv 53 1024 in
  let M := SpecFloat.SFmul 53 1024 in
  map ofSpecFloat
    [ D (D (ofZ a) (ofZ b)) (ofZ c);
      M (M (ofZ a) (ofZ b)) (ofZ c);
      M (D (ofZ a) (ofZ b)) (ofZ c);
      D (M (ofZ a) (ofZ b)) (ofZ c) ].

Definition sameNumbers (l l' : list number) : bool :=
  forallb (fun xy => sameNumber (fst xy) (snd xy)) (combine l l')
  && (length l =? length l')%nat.

(** Operands that reach the corners of the format: ties between two
    doubles, integers above [2 ^ 53], subnormal results, results that
    round to zero, overflow to infinity, the largest double, zero
    divisors and zero over zero. *)
Definition operandSamples : list (Z * Z * Z) :=
  ([ (1, 3, 7); (-7, 3, 100); (23, 40, 100); (1, 10, 3); (2 ^ 60 + 1, 3, 5);
     (9007199254740993, 1, 1); (1, 3 * 2 ^ 1000, 2 ^ 60); (1, 2 ^ 1000, 2 ^ 74);
     (1, 2 ^ 1000, 2 ^ 75); (1, 2 ^ 1000, 3 * 2 ^ 73); (2 ^ 1000, 2 ^ 20, 2 ^ 10);
     (2 ^ 1000, 2 ^ 23, -3); (- (2 ^ 1000), 2 ^ 24, 3); (2 ^ 1023, 2, 1);
     (2 ^ 1024 - 2 ^ 970, 1, 1); (2 ^ 1024 - 2 ^ 970 - 1, 1, 1);
     (0, 5, 3); (5, 0, 3); (-5, 0, 3); (0, 0, 1); (5, 3, 0);
     (123456789, 987654321, 1000003) ])%Z.

(** ** Further vocabulary *)

(** Two draws of one half, then draws outside the unit interval. *)
Definition halfThenWild : nat -> Q := fun k => if (k <? 2)%nat then 1 # 2 else 7.

(** Nothing reported, nothing about to be, and the feedback element in
    place. *)
Definition silentPage (ncards : nat) (p : Page) : Prop :=
  length (cards (dom p)) = ncards
  /\ feedbackDiv (dom p) <> None
  /\ finished p = []
  /\ pendingFinish (timers p) = [].

(** A trial whose [correct] is neither 0 nor 1. *)
Definition strayTrial : Trial :=
  mkTrial STIMULI.brownRabbit STIMULI.brownBoat STIMULI.whiteRabbit 2 None.

(** The pending reminders. *)
Definition isPrompt (tm : Timer) : bool := negb (isFinish tm).

Definition pendingPrompt (l : list Timer) : list Timer := filter isPrompt l.

(** What a trial may have said after its cue: with feedback nothing before
    the latch is set and one of the two feedback sentences after; without
    feedback the reminder, once its timer is gone. *)
Definition saidAfterCue (withFeedback : bool) (p : Page) (said : list string) : Prop :=
  if withFeedback
  then pendingPrompt (timers p) = []
       /\ (responded p = false -> said = [])
       /\ (said = [] \/ said = ["That's right!"]
           \/ said = ["This is the same color, so you should choose this picture."])
  else (said = [] /\ (length (pendingPrompt (timers p)) <= 1)%nat)
       \/ (said = ["Choose one of the pictures."] /\ pendingPrompt (timers p) = []).

(** The rows the summary counts: results of the task in one of the three
    summarised phases. *)
Definition summarised (r : DataRow.t) : bool :=
  match DataRow.task r, DataRow.phase r with
  | Some t, Some p =>
      (t =? "dccs") && ((p =? "color_test") || (p =? "shape_test") || (p =? "mixed"))
  | _, _ => false
  end.

(** ** The timeline *)

Inductive Plugin := jsPsychHtmlButtonResponse | jsPsychHtmlKeyboardResponse.

(** [choices]: the button labels, or the string [NO_KEYS]. *)
Inductive Choices :=
| Buttons (labels : list string)
| NO_KEYS.

(** The [data] object of a trial screen. *)
Module TrialInfo.
Record t := mk {
  task : string;
  phase : string;
  trial_num : nat;
  dimension : string;
  correct_response : Z;
  target : string
}.
End TrialInfo.

Inductive ScreenData :=
| NoData
| WelcomeData
| DccsData (info : TrialInfo.t).

(** What a screen shows. The fixed markup of the welcome and instruction
    screens is a constant of the source and is not spelled out; a trial
    screen shows [createTrialStimulus(target, left, right, cueWord)], the
    summary is computed from the recorded data when it is shown. *)
Inductive Shown :=
| Markup
| TrialMarkup (target left right : Stimulus) (cueWord : string)
| SummaryOf.

(** The [on_load] hook: none, a [playAudio] call, or a [setupTrial] call
    with its arguments after [jsPsych]. *)
Inductive OnLoad :=
| NoHook
| Speak (text : string)
| Setup (trial : Trial) (phase : string) (trialNum : nat) (dimension : string)
        (withFeedback : bool).

Record Screen := mkScreen {
  type : Plugin;
  stimulus : Shown;
  choices : Choices;
  data : ScreenData;
  on_load : OnLoad;
  has_on_finish : bool
}.

Definition createWelcome : Screen :=
  mkScreen jsPsychHtmlButtonResponse Markup (Buttons ["Start"]) WelcomeData NoHook true.

Definition instruction (label text : string) : Screen :=
  mkScreen jsPsychHtmlButtonResponse Markup (Buttons [label]) NoData (Speak text) false.

Definition createColorInstructions : list Screen :=
  [ instruction "Next" "We are going to play some games. In the COLOR game, choose the picture that's the same COLOR as the picture at the top of the screen. If it's BROWN, choose this picture.";
    instruction "Next" "If it's WHITE, choose this picture.";
    instruction "Start Practice" "Now you try." ].

Definition createColorTestInstructions : list Screen :=
  [ instruction "Start" "Now, we're going to play with some different SHAPES and COLORS. This time we'll use BALLS and TRUCKS that are ORANGE and BLUE.";
    instruction "Start" "Now it's your turn. Go as fast as you can without making mistakes." ].

Definition createShapeInstructions : Screen :=
  instruction "Start Shape Game" "Now, we're going to play the SHAPE game. In the SHAPE game, choose the picture that's the same SHAPE as the picture at the top.".

Definition createMixedInstructions : Screen :=
  instruction "Start Mixed Trials" "We can also play both games together. Remember, when you see the word SHAPE, choose the picture that is the same shape. When you see the word COLOR, choose the picture that is the same color.".

(** The screen objects of [createPracticeTrial] and [createTestTrial]. *)
Definition practiceScreen (trial : Trial) (index : nat) : Screen :=
  {| type := jsPsychHtmlKeyboardResponse;
     stimulus := TrialMarkup (target trial) (left trial) (right trial) "COLOR";
     choices := NO_KEYS;
     data := DccsData (TrialInfo.mk "dccs" "color_practice" (index + 1) "color"
                         (correct trial) (name (target trial)));
     on_load := Setup trial "color_practice" (index + 1) "color" true;
     has_on_finish := false |}.

Definition testScreen (trial : Trial) (phase dimension : string) (index : nat) : Screen :=
  {| type := jsPsychHtmlKeyboardResponse;
     stimulus := TrialMarkup (target trial) (left trial) (right trial)
                   (toUpperCase dimension);
     choices := NO_KEYS;
     data := DccsData (TrialInfo.mk "dccs" phase (index + 1) dimension
                         (correct trial) (name (target trial)));
     on_load := Setup trial phase (index + 1) dimension false;
     has_on_finish := false |}.

Definition resultsScreen : Screen :=
  mkScreen jsPsychHtmlButtonResponse SummaryOf (Buttons ["View Data"]) NoData NoHook false.

(** [arr.forEach((x, index) => timeline.push(f(x, index)))], from [index]
    on. *)
Fixpoint forEachFrom {A : Type} (f : A -> nat -> Screen) (index : nat) (arr : list A)
  : list Screen :=
  match arr with
  | [] => []
  | x :: rest => f x index :: forEachFrom f (S index) rest
  end.

(** The same for the mixed trials, where [trial.dimension!] is read: a
    trial without a dimension makes [dimension.toUpperCase()] throw. *)
Fixpoint forEachMixedFrom (index : nat) (arr : list Trial) : option (list Screen) :=
  match arr with
  | [] => Some []
  | trial :: rest =>
      match dimension trial with
      | None => None
      | Some d =>
          option_map (cons (testScreen trial "mixed" d index))
                     (forEachMixedFrom (S index) rest)
      end
  end.

Definition DEFAULT_PRACTICE_TRIALS : nat := 5.
Definition DEFAULT_TEST_TRIALS : nat := 5.
Definition DEFAULT_MIXED_TRIALS : nat := 30.

Record Options := mkOptions {
  practiceTrials : nat;
  testTrials : nat;
  mixedTrials : nat;
  showInstructions : bool;
  showResults : bool
}.

Definition defaultOptions : Options :=
  mkOptions DEFAULT_PRACTICE_TRIALS DEFAULT_TEST_TRIALS DEFAULT_MIXED_TRIALS true true.

(** [createTimeline]: the module state after its [resetState()] call, and
    the timeline, or [None] when generating the mixed trials threw. *)
Definition createTimeline (random : nat -> Q) (o : Options)
  : GameState * option (list Screen) :=
  let timeline := [createWelcome] in
  let timeline := timeline ++ (if showInstructions o then createColorInstructions else []) in
  let timeline := timeline
    ++ forEachFrom practiceScreen 0 (firstn (practiceTrials o) COLOR_PRACTICE_TRIALS) in
  let timeline := timeline
    ++ (if showInstructions o then createColorTestInstructions else []) in
  let timeline := timeline
    ++ forEachFrom (fun trial index => testScreen trial "color_test" "color" index) 0
         (firstn (testTrials o) COLOR_TEST_TRIALS) in
  let timeline := timeline ++ (if showInstructions o then [createShapeInstructions] else []) in
  let timeline := timeline
    ++ forEachFrom (fun trial index => testScreen trial "shape_test" "shape" index) 0
         (firstn (testTrials o) SHAPE_TEST_TRIALS) in
  let timeline := timeline ++ (if showInstructions o then [createMixedInstructions] else []) in
  (resetState,
   match generateMixedTrials random (mixedTrials o) with
   | None => None
   | Some mixedTrialsList =>
       match forEachMixedFrom 0 mixedTrialsList with
       | None => None
       | Some screens =>
           Some (timeline ++ screens ++ (if showResults o then [resultsScreen] else []))
       end
   end).

(** Kinds of screens, told apart by their fields. *)
Definition isInstruction (s : Screen) : bool :=
  match on_load s with Speak _ => true | _ => false end.

Definition isTrial (s : Screen) : bool :=
  match data s with DccsData _ => true | _ => false end.

Definition isSummary (s : Screen) : bool :=
  match stimulus s with SummaryOf => true | _ => false end.

(** The phase and the trial number a screen records, for a trial screen. *)
Definition phaseNum (s : Screen) : option (string * nat) :=
  match data s with
  | DccsData info => Some (TrialInfo.phase info, TrialInfo.trial_num info)
  | _ => None
  end.

(** [(ph, 1); ...; (ph, n)] *)
Definition numbered (ph : string) (n : nat) : list (option (string * nat)) :=
  map (fun k => Some (ph, k)) (seq 1 n).

(** A trial screen is coherent: what it records, what it shows and what it
    scores agree, and the trial has exactly one right answer on the
    dimension of its cue. *)
Definition coherent (s : Screen) : Prop :=
  match on_load s with
  | Setup trial ph num dim fb =>
      data s = DccsData (TrialInfo.mk "dccs" ph num dim (correct trial)
                           (name (target trial)))
      /\ stimulus s = TrialMarkup (target trial) (left trial) (right trial)
                        (toUpperCase dim)
      /\ choices s = NO_KEYS
      /\ fb = (ph =? "color_practice")
      /\ wellPosed dim trial
  | _ => isTrial s = false
  end.

(** ** The audio switch of the welcome screen *)

(** [window.tempaudio_enabled] is [None] while the property is not there.
    The checkbox writes its state into it on every change; nothing else
    writes it, so it only ever holds a boolean. *)
Definition audioToggle_onchange (checked : bool) (tempaudio_enabled : option bool)
  : option bool :=
  Some checked.

(** [on_finish] of the welcome screen: the new module state, the value
    stored in [data.audio_enabled], and [window.tempaudio_enabled] after the
    [delete]. *)
Definition welcome_on_finish (state : GameState) (tempaudio_enabled : option bool)
  : GameState * bool * option bool :=
  let enabled := match tempaudio_enabled with Some true => true | _ => false end in
  (mkGameState enabled (current_phase state) (trials_completed state), enabled, None).

(** The page of a trial screen when it is loaded: the document of its
    stimulus, set up by its hook. *)
Definition loadScreen (state : GameState) (hasSpeech : bool) (startTime : Q)
    (s : Screen) : option Page :=
  match on_load s, stimulus s with
  | Setup trial ph num dim fb, TrialMarkup tg l r cueWord =>
      Some (setupTrial state hasSpeech dim fb startTime (createTrialStimulus tg l r cueWord))
  | _, _ => None
  end.

(** * Properties *)

(** ** The generator *)

Lemma dimensionOf_parity (i : nat) :
  dimensionOf i = if Nat.even i then "color" else "shape".
Proof.
  unfold dimensionOf.
  destruct (Nat.even i) eqn:Heven.
  - apply Nat.even_spec in Heven. destruct Heven as [m ->].
    rewrite Nat.mul_comm, Nat.Div0.mod_mul. reflexivity.
  - assert (Hodd : Nat.odd i = true) by (rewrite <- Nat.negb_even, Heven; reflexivity).
    apply Nat.odd_spec in Hodd. destruct Hodd as [m ->].
    rewrite Nat.add_comm, Nat.mul_comm, Nat.Div0.mod_add. reflexivity.
Qed.

(** A draw in [0, 1) picks an index within the pool of four. *)
Lemma draw_in_pool (r : Q) :
  0 <= r -> r < 1 ->
  (0 <= Qfloor (r * inject_Z (Z.of_nat (length testStimuli))) < 4)%Z.
Proof.
  intros H0 H1. simpl length. change (inject_Z (Z.of_nat 4)) with (4 # 1).
  split.
  - change 0%Z with (Qfloor 0). apply Qfloor_resp_le.
    apply Qmult_le_0_compat; [assumption | discriminate].
  - rewrite Zlt_Qlt. eapply Qle_lt_trans; [apply Qfloor_le |].
    change (inject_Z 4) with (1 * (4 # 1)).
    apply Qmult_lt_compat_r; [reflexivity | assumption].
Qed.

Ltac settle_posed :=
  first [ left; repeat split; reflexivity | right; repeat split; reflexivity ].

Lemma mixedTrial_good (random : nat -> Q) (i k : nat) :
  unitDraws random ->
  exists t, mixedTrial random i k = Some t /\ goodTrial i t.
Proof.
  intros Hu. destruct (Hu k) as [H0 H1].
  pose proof (draw_in_pool _ H0 H1) as Hz.
  unfold mixedTrial, goodTrial.
  set (z := Qfloor _) in *.
  assert (Hcases : z = 0%Z \/ z = 1%Z \/ z = 2%Z \/ z = 3%Z) by lia.
  clearbody z.
  unfold choicesFor. destruct (Qlt_le_dec (1 # 2) (random (S k))) as [Hs | Hs];
  unfold dimensionOf; destruct (Nat.eqb (i mod 2) 0);
  destruct Hcases as [-> | [-> | [-> | ->]]];
  (eexists; split; [reflexivity | split; [reflexivity | settle_posed]]).
Qed.

Lemma generateLoop_spec (random : nat -> Q) (Hu : unitDraws random) :
  forall todo i k acc,
  exists l, generateLoop random todo i k acc = Some (acc ++ l)
            /\ length l = todo
            /\ forall j t, nth_error l j = Some t -> goodTrial (i + j) t.
Proof.
  induction todo as [| todo IH]; intros i k acc.
  - exists []. rewrite app_nil_r. split; [reflexivity | split; [reflexivity |]].
    intros [| j] t Hj; discriminate Hj.
  - destruct (mixedTrial_good random i k Hu) as [t [Ht Hgood]].
    destruct (IH (S i) (S (S k)) (acc ++ [t])) as [l [Hl [Hlen Hall]]].
    exists (t :: l). simpl. rewrite Ht, Hl, <- app_assoc. simpl.
    split; [reflexivity | split; [congruence |]].
    intros [| j] u Hj; simpl in Hj.
    + injection Hj as <-. rewrite Nat.add_0_r. exact Hgood.
    + rewrite Nat.add_succ_r. apply (Hall j u Hj).
Qed.

Lemma generateMixedTrials_spec (random : nat -> Q) (Hu : unitDraws random) (n : nat) :
  exists l, generateMixedTrials random n = Some l
            /\ length l = n
            /\ forall j t, nth_error l j = Some t -> goodTrial j t.
Proof.
  destruct (generateLoop_spec random Hu n 0 0 []) as [l H]. exists l. exact H.
Qed.

Lemma alwaysHalf_unit : unitDraws alwaysHalf.
Proof. intros k. split; reflexivity || discriminate. Qed.

(** C4: for every count [n] and every random source within its contract,
    [generateMixedTrials n] returns, without failing, a list of exactly [n]
    trials; for the count 0 it returns the empty list. *)
Theorem generateMixedTrials_length (random : nat -> Q) (Hu : unitDraws random) (n : nat) :
  (exists l, generateMixedTrials random n = Some l /\ length l = n)
  /\ generateMixedTrials random 0 = Some [].
Proof.
  split; [| reflexivity].
  destruct (generateMixedTrials_spec random Hu n) as [l [Hl [Hlen _]]].
  exists l. split; assumption.
Qed.

Lemma generateMixedTrials_length_witness :
  (exists l, generateMixedTrials alwaysHalf 7 = Some l /\ length l = 7%nat)
  /\ generateMixedTrials alwaysHalf 0 = Some [].
Proof. exact (generateMixedTrials_length alwaysHalf alwaysHalf_unit 7). Defined.

(** C5: in the list [generateMixedTrials n] returns, the trial at every
    index [i < n] has the dimension "color" when [i] is even and "shape"
    when [i] is odd, whatever the random source draws. *)
Theorem generateMixedTrials_alternates
    (random : nat -> Q) (Hu : unitDraws random) (n i : nat) (Hi : (i < n)%nat) :
  exists l t, generateMixedTrials random n = Some l
              /\ nth_error l i = Some t
              /\ dimension t = Some (if Nat.even i then "color" else "shape").
Proof.
  destruct (generateMixedTrials_spec random Hu n) as [l [Hl [Hlen Hall]]].
  destruct (nth_error l i) as [t |] eqn:Ht.
  - exists l, t. split; [assumption | split; [assumption |]].
    rewrite <- dimensionOf_parity. apply (Hall i t Ht).
  - apply nth_error_None in Ht. lia.
Qed.

Lemma generateMixedTrials_alternates_witness :
  exists l t, generateMixedTrials alwaysHalf 6 = Some l
              /\ nth_error l 3 = Some t
              /\ dimension t = Some "shape".
Proof.
  apply (generateMixedTrials_alternates alwaysHalf alwaysHalf_unit 6 3). lia.
Defined.

(** C1: every trial of [generateMixedTrials] is well posed on its own
    dimension ("color" at even indices, "shape" at odd ones), and so is
    every trial of the three fixed lists on the dimension of its phase:
    exactly one of [left] and [right] has the target's value of the
    attribute, and [correct] is the index of that choice. *)
Theorem trials_well_posed (random : nat -> Q) (Hu : unitDraws random) (n : nat) :
  (exists l, generateMixedTrials random n = Some l
             /\ forall i t, nth_error l i = Some t ->
                  dimension t = Some (if Nat.even i then "color" else "shape")
                  /\ wellPosed (if Nat.even i then "color" else "shape") t)
  /\ Forall (wellPosed "color") COLOR_PRACTICE_TRIALS
  /\ Forall (wellPosed "color") COLOR_TEST_TRIALS
  /\ Forall (wellPosed "shape") SHAPE_TEST_TRIALS.
Proof.
  split.
  - destruct (generateMixedTrials_spec random Hu n) as [l [Hl [_ Hall]]].
    exists l. split; [assumption |].
    intros i t Ht. rewrite <- dimensionOf_parity. apply (Hall i t Ht).
  - repeat split; repeat (constructor; [settle_posed |]); constructor.
Qed.

Lemma trials_well_posed_witness :
  (exists l, generateMixedTrials alwaysHalf 4 = Some l
             /\ forall i t, nth_error l i = Some t ->
                  dimension t = Some (if Nat.even i then "color" else "shape")
                  /\ wellPosed (if Nat.even i then "color" else "shape") t)
  /\ Forall (wellPosed "color") COLOR_PRACTICE_TRIALS
  /\ Forall (wellPosed "color") COLOR_TEST_TRIALS
  /\ Forall (wellPosed "shape") SHAPE_TEST_TRIALS.
Proof. exact (trials_well_posed alwaysHalf alwaysHalf_unit 4). Defined.

(** C7: with a source that returns one half at every draw,
    [generateMixedTrials 2] yields a "color" trial followed by a "shape"
    trial; the swap test [random > 0.5] is false at one half, so both keep
    the base order, the blue ball on the left and the orange truck on the
    right. *)
Theorem generateMixedTrials_half :
  choicesFor (1 # 2) = (STIMULI.blueBall, STIMULI.orangeTruck)
  /\ exists t0 t1,
       generateMixedTrials alwaysHalf 2 = Some [t0; t1]
       /\ dimension t0 = Some "color" /\ dimension t1 = Some "shape"
       /\ left t0 = STIMULI.blueBall /\ right t0 = STIMULI.orangeTruck
       /\ left t1 = STIMULI.blueBall /\ right t1 = STIMULI.orangeTruck.
Proof.
  split; [reflexivity |].
  do 2 eexists. split; [vm_compute; reflexivity |].
  repeat split.
Qed.

(** ** The response handler *)

Lemma takeTimer_split (k : nat) (l : list Timer) (tm : Timer) (rest : list Timer) :
  takeTimer k l = Some (tm, rest) ->
  exists l1 l2, l = l1 ++ tm :: l2 /\ rest = l1 ++ l2.
Proof.
  revert k tm rest. induction l as [| x l IH]; intros k tm rest H.
  - destruct k; discriminate H.
  - destruct k as [| k]; simpl in H.
    + injection H as <- <-. exists [], l. split; reflexivity.
    + destruct (takeTimer k l) as [[y r'] |] eqn:Hk; [| discriminate H].
      injection H as <- <-.
      destruct (IH k y r' Hk) as [l1 [l2 [-> ->]]].
      exists (x :: l1), l2. split; reflexivity.
Qed.

Lemma addClassAt_length (c : string) (n : nat) (cs cs' : list (list string)) :
  addClassAt c n cs = Some cs' -> length cs' = length cs.
Proof.
  revert n cs'. induction cs as [| x cs IH]; intros n cs' H.
  - destruct n; discriminate H.
  - destruct n as [| n]; simpl in H.
    + injection H as <-. reflexivity.
    + destruct (addClassAt c n cs) as [r |] eqn:Hr; [| discriminate H].
      injection H as <-. simpl. f_equal. apply (IH n r Hr).
Qed.

Lemma highlight_length (cs cs' : list (list string)) (z : Z) :
  highlight cs z = Some cs' -> length cs' = length cs.
Proof.
  unfold highlight. destruct (z <? 0)%Z; [discriminate |]. apply addClassAt_length.
Qed.

Lemma pendingFinish_take (k : nat) (l : list Timer) (tm : Timer) (rest : list Timer) :
  takeTimer k l = Some (tm, rest) ->
  if isFinish tm
  then exists l1 l2, pendingFinish l = l1 ++ tm :: l2 /\ pendingFinish rest = l1 ++ l2
  else pendingFinish rest = pendingFinish l.
Proof.
  intros H. destruct (takeTimer_split k l tm rest H) as [l1 [l2 [-> ->]]].
  unfold pendingFinish. rewrite !filter_app. simpl.
  destruct (isFinish tm); [| reflexivity].
  exists (filter isFinish l1), (filter isFinish l2). split; reflexivity.
Qed.

Lemma orElse_None {A : Type} (a : option A) : orElse a None = a.
Proof. destruct a; reflexivity. Qed.

Ltac conjs := repeat match goal with |- _ /\ _ => split end.

Section ResponseHandler.

Variable state : GameState.
Variable hasSpeech : bool.
Variable trial : Trial.
Variable dimension' : string.
Variable withFeedback : bool.
Variable startTime : Q.

Local Abbreviation play := (playAudio state hasSpeech).
Local Abbreviation click := (onClick state hasSpeech trial withFeedback startTime).
Local Abbreviation callback_run := (runCallback state hasSpeech startTime).
Local Abbreviation next := (step state hasSpeech trial withFeedback startTime).
Local Abbreviation setup := (setupTrial state hasSpeech dimension' withFeedback startTime).
Local Abbreviation inv := (latched trial withFeedback startTime).

(** [playAudio] touches the spoken log only. *)
Lemma playAudio_frame (text : string) (p : Page) :
  responded (play text p) = responded p
  /\ dom (play text p) = dom p
  /\ finished (play text p) = finished p
  /\ timers (play text p) = timers p.
Proof.
  unfold playAudio. destruct (audio_enabled state && hasSpeech); repeat split.
Qed.

Lemma setupTrial_latched (document : Dom) :
  inv (length (cards document)) None (setup document).
Proof.
  unfold latched, setupTrial.
  destruct (playAudio_frame (toUpperCase dimension') (mkPage false document [] [] []))
    as [Hr [Hd [Hf Ht]]].
  destruct withFeedback; simpl; rewrite ?Hr, ?Hd, ?Hf, ?Ht; simpl; repeat split.
Qed.

Lemma onClick_latched (ncards i : nat) (now : Q) (p : Page) :
  (i < ncards)%nat ->
  inv ncards None p ->
  inv ncards (Some (i, now)) (click i now p).
Proof.
  intros Hi [Hn [Hnf [Hr [Hf Hp]]]].
  unfold onClick. rewrite Hr.
  destruct withFeedback eqn:Hw.
  - (* feedback path *)
    assert (Hgoal : forall q : Page,
               length (cards (dom q)) = ncards -> responded q = true ->
               finished q = [] -> timers q = timers p ->
               latched trial true startTime ncards (Some (i, now))
                 (setTimeout (FinishTrial i (Z.of_nat i =? correct trial)%Z)
                    (now + (if (Z.of_nat i =? correct trial)%Z then 1500 else 2500)) q)).
    { intros q Hq1 Hq2 Hq3 Hq4. unfold latched, setTimeout; simpl.
      rewrite Hq3, Hq4. unfold pendingFinish in *. rewrite filter_app, Hp. simpl.
      conjs; try assumption; try congruence.
      + constructor.
      + constructor; [split; reflexivity | constructor].
      + lia. }
    assert (Hstop : forall q : Page,
               length (cards (dom q)) = ncards -> responded q = true ->
               finished q = [] -> timers q = timers p ->
               latched trial true startTime ncards (Some (i, now)) q).
    { intros q Hq1 Hq2 Hq3 Hq4. unfold latched. rewrite Hq3, Hq4, Hp. simpl.
      conjs; try assumption; try congruence; try lia; constructor. }
    simpl. destruct (feedbackDiv (dom p)) as [fb |].
    + destruct (Z.of_nat i =? correct trial)%Z.
      * destruct (playAudio_frame "That's right!"
                    (set_feedback "That's right!" "dccs-feedback correct"
                       (set_responded true p))) as [H1 [H2 [H3 H4]]].
        apply Hgoal; rewrite ?H1, ?H2, ?H3, ?H4; simpl; auto.
      * set (q := play _ _).
        destruct (playAudio_frame
                    "This is the same color, so you should choose this picture."
                    (set_feedback "This is the same color." "dccs-feedback incorrect"
                       (set_responded true p))) as [H1 [H2 [H3 H4]]].
        fold q in H1, H2, H3, H4.
        destruct (highlight (cards (dom q)) (correct trial)) as [cs |] eqn:Hh.
        -- apply Hgoal; simpl; rewrite ?H1, ?H2, ?H3, ?H4; simpl; auto.
           rewrite (highlight_length _ _ _ Hh), H2. simpl. assumption.
        -- apply Hstop; rewrite ?H1, ?H2, ?H3, ?H4; simpl; auto.
    + apply Hgoal; simpl; auto.
  - (* no feedback: the result is reported at once *)
    unfold latched, finishTrial; simpl. rewrite Hf, Hp. simpl.
    conjs; try assumption; try congruence; try constructor.
    + unfold payloadOf; conjs; simpl; congruence.
    + constructor.
Qed.

Lemma step_latched (ncards : nat) (a : option (nat * Q)) (p : Page) (e : Event) :
  inv ncards a p ->
  inv ncards (orElse a (firstClick ncards [e])) (next p e).
Proof.
  intros Hl. destruct e as [i now | k now cur]; simpl.
  - (* a click *)
    destruct Hl as [Hn Hrest]. rewrite Hn.
    destruct (i <? ncards)%nat eqn:Hi.
    + destruct a as [[i0 t0] |].
      * simpl. unfold onClick.
        destruct Hrest as [Hnf [Hr Hx]]. rewrite Hr.
        split; [assumption | split; [assumption | split; assumption]].
      * simpl. apply onClick_latched; [apply Nat.ltb_lt; assumption |].
        split; assumption.
    + rewrite orElse_None. split; assumption.
  - (* a timer *)
    rewrite orElse_None.
    destruct (takeTimer k (timers p)) as [[tm rest] |] eqn:Htake; [| assumption].
    destruct (Qle_bool (due tm) now) eqn:Hdue; [| assumption].
    pose proof (pendingFinish_take _ _ _ _ Htake) as Hpf.
    destruct Hl as [Hn [Hnf Hacc]].
    unfold runCallback, isFinish in *.
    destruct (callback tm) as [i' c' |] eqn:Hcb.
    + (* the feedback timer reports the result *)
      destruct Hpf as [l1 [l2 [Hall Hrest]]].
      destruct a as [[i t] |].
      * destruct Hacc as [Hr [Hfin [Htm Hlen]]].
        rewrite Hall in Htm, Hlen. rewrite length_app in Hlen. simpl in Hlen.
        assert (Hf0 : finished p = []) by (destruct (finished p); [reflexivity | simpl in Hlen; lia]).
        assert (Hl1 : l1 = []) by (destruct l1; [reflexivity | simpl in Hlen; lia]).
        assert (Hl2 : l2 = []) by (destruct l2; [reflexivity | simpl in Hlen; lia]).
        subst l1 l2. simpl in *.
        apply Forall_inv in Htm. destruct Htm as [Hcb' Hdue'].
        rewrite Hcb in Hcb'. injection Hcb' as -> ->.
        assert (Hw : withFeedback = true).
        { destruct withFeedback; [reflexivity |].
          rewrite (Hnf eq_refl) in Hall. discriminate Hall. }
        unfold latched, finishTrial, set_timers; simpl. rewrite Hf0, Hrest. simpl.
        conjs; try assumption; try discriminate; try reflexivity.
        -- constructor; [| constructor].
           unfold payloadOf; conjs; simpl; try reflexivity; try congruence.
           intros _. apply Qle_bool_iff in Hdue. rewrite Hdue' in Hdue.
           unfold Qminus. apply Qplus_le_l. assumption.
        -- constructor.
      * destruct Hacc as [_ [_ Hnone]]. rewrite Hnone in Hall.
        destruct l1; discriminate Hall.
    + (* the reminder *)
      assert (Hframe : forall q : Page,
                 responded q = responded p -> dom q = dom p ->
                 finished q = finished p -> timers q = rest ->
                 inv ncards a q).
      { intros q H1 H2 H3 H4. unfold latched. rewrite H1, H2, H3, H4, Hpf.
        split; [assumption | split; assumption]. }
      destruct (negb (responded (set_timers rest p)) && cur).
      * destruct (playAudio_frame "Choose one of the pictures." (set_timers rest p))
          as [H1 [H2 [H3 H4]]].
        apply Hframe; rewrite ?H1, ?H2, ?H3, ?H4; reflexivity.
      * apply Hframe; reflexivity.
Qed.

Lemma run_latched (ncards : nat) (events : list Event) :
  forall (a : option (nat * Q)) (p : Page),
  inv ncards a p ->
  inv ncards (orElse a (firstClick ncards events)) (fold_left next events p).
Proof.
  induction events as [| e events IH]; intros a p Hl.
  - simpl. rewrite orElse_None. assumption.
  - simpl fold_left.
    replace (orElse a (firstClick ncards (e :: events)))
      with (orElse (orElse a (firstClick ncards [e])) (firstClick ncards events)).
    + apply IH, step_latched, Hl.
    + destruct a; [reflexivity |]. simpl.
      destruct e as [i now | k now cur]; [| reflexivity].
      destruct (i <? ncards)%nat; reflexivity.
Qed.

End ResponseHandler.

(** The pages a set-up trial can reach keep the latch invariant, with the
    first click on a card as the accepted one. *)
Lemma run_reaches_latched (state : GameState) (hasSpeech : bool) (trial : Trial)
    (dimension' : string) (withFeedback : bool) (startTime : Q)
    (document : Dom) (events : list Event) :
  latched trial withFeedback startTime (length (cards document))
    (firstClick (length (cards document)) events)
    (run state hasSpeech trial dimension' withFeedback startTime document events).
Proof.
  unfold run.
  apply (run_latched state hasSpeech trial withFeedback startTime
           (length (cards document)) events None).
  apply setupTrial_latched.
Qed.

(** Every reported payload scores the accepted click by index equality, on
    both paths; without feedback its [rt] is the time from set-up to that
    click, with feedback it is at least the feedback delay longer. *)
Lemma reported_payload (state : GameState) (hasSpeech : bool) (trial : Trial)
    (dimension' : string) (withFeedback : bool) (startTime : Q)
    (document : Dom) (events : list Event) (d : TrialData.t) :
  In d (finished (run state hasSpeech trial dimension' withFeedback startTime
                    document events)) ->
  exists i t, firstClick (length (cards document)) events = Some (i, t)
              /\ payloadOf trial withFeedback startTime i t d.
Proof.
  intros Hin.
  pose proof (run_reaches_latched state hasSpeech trial dimension' withFeedback
                startTime document events) as [_ [_ Hacc]].
  destruct (firstClick (length (cards document)) events) as [[i t] |].
  - exists i, t. split; [reflexivity |].
    destruct Hacc as [_ [Hfin _]]. rewrite Forall_forall in Hfin. apply Hfin, Hin.
  - destruct Hacc as [_ [Hnil _]]. rewrite Hnil in Hin. destruct Hin.
Qed.

(** C3: whatever clicks and timer runs a set-up trial receives, at most one
    result is reported, it is the result of the first click on a card, and
    once a click has been accepted every further click leaves the page
    exactly as it was. *)
Theorem response_accepted_once (state : GameState) (hasSpeech : bool) (trial : Trial)
    (dimension' : string) (withFeedback : bool) (startTime : Q)
    (document : Dom) (events : list Event) :
  let ncards := length (cards document) in
  let p := run state hasSpeech trial dimension' withFeedback startTime document events in
  (length (finished p) <= 1)%nat
  /\ (forall d, In d (finished p) ->
        exists i t, firstClick ncards events = Some (i, t) /\ TrialData.response d = i)
  /\ (firstClick ncards events <> None ->
        forall i now,
          step state hasSpeech trial withFeedback startTime p (Click i now) = p).
Proof.
  intros ncards p.
  pose proof (run_reaches_latched state hasSpeech trial dimension' withFeedback
                startTime document events) as [Hn [_ Hacc]].
  fold ncards in Hn, Hacc. fold p in Hn, Hacc.
  split; [| split].
  - destruct (firstClick ncards events) as [[i t] |].
    + destruct Hacc as [_ [_ [_ Hlen]]]. lia.
    + destruct Hacc as [_ [Hnil _]]. rewrite Hnil. simpl. lia.
  - intros d Hin.
    destruct (reported_payload _ _ _ _ _ _ _ _ d Hin) as [i [t [Hfc [Hresp _]]]].
    exists i, t. split; assumption.
  - intros Hsome i now.
    destruct (firstClick ncards events) as [[i0 t0] |]; [| contradiction].
    destruct Hacc as [Hr _]. simpl. unfold onClick. rewrite Hr.
    destruct (i <? length (cards (dom p)))%nat; reflexivity.
Qed.

(** C2: on the feedback path the reported [rt] is not the time from set-up
    to the click.  The first practice trial is set up at clock 0 and its
    left card clicked at 700; the feedback timer runs at 2200 and reports
    [correct = true] with [rt = 2200], the clock of the timer, where the
    click came at 700.  The same click without feedback reports 700. *)
Theorem practice_rt_is_timer_clock :
  finished (practiceRun [Click 0 700; Fire 0 2200 true])
    = [TrialData.mk 0 true (2200 - 0)]
  /\ ~ (2200 - 0 == 700 - 0)
  /\ finished (testRun [Click 0 700]) = [TrialData.mk 0 true (700 - 0)].
Proof.
  split; [vm_compute; reflexivity | split; [| vm_compute; reflexivity]].
  intros H. vm_compute in H. discriminate H.
Qed.

(** ** Timers *)

(** C8, as stated, fails for the feedback timer: after the accepted click
    on the first practice trial the pending timer is the feedback timer,
    the latch is set, and running its callback with the current-trial
    accessor at null still changes the page. *)
Lemma feedback_timer_acts_unchecked :
  let p := practiceRun [Click 0 700] in
  timers p = [mkTimer (700 + 1500) (FinishTrial 0 true)]
  /\ responded p = true
  /\ runCallback resetState false 0 (FinishTrial 0 true) 2200 false p <> p.
Proof.
  split; [reflexivity | split; [reflexivity |]].
  intros H. apply (f_equal (fun q => length (finished q))) in H.
  vm_compute in H. discriminate H.
Qed.

(** Without feedback the only timer a trial ever has pending is the
    reminder scheduled at set-up. *)
Lemma step_only_reminder (state : GameState) (hasSpeech : bool) (trial : Trial)
    (startTime : Q) (p : Page) (e : Event) :
  timers p = [mkTimer (startTime + 5000) Prompt] \/ timers p = [] ->
  timers (step state hasSpeech trial false startTime p e)
    = [mkTimer (startTime + 5000) Prompt]
  \/ timers (step state hasSpeech trial false startTime p e) = [].
Proof.
  intros Hp. destruct e as [i now | k now cur]; simpl.
  - destruct (i <? length (cards (dom p)))%nat; [| exact Hp].
    unfold onClick. destruct (responded p); exact Hp.
  - destruct (takeTimer k (timers p)) as [[tm rest] |] eqn:Htake; [| exact Hp].
    destruct (Qle_bool (due tm) now); [| exact Hp].
    assert (Hrest : rest = [] /\ callback tm = Prompt).
    { destruct Hp as [Hp | Hp]; rewrite Hp in Htake.
      - destruct k as [| k]; simpl in Htake.
        + injection Htake as <- <-. split; reflexivity.
        + destruct k; discriminate Htake.
      - destruct k; discriminate Htake. }
    destruct Hrest as [-> Hcb]. rewrite Hcb. right. simpl.
    destruct (negb (responded p) && cur); [| reflexivity].
    destruct (playAudio_frame state hasSpeech "Choose one of the pictures."
                (set_timers [] p)) as [_ [_ [_ Ht]]].
    rewrite Ht. reflexivity.
Qed.

Lemma run_only_reminder (state : GameState) (hasSpeech : bool) (trial : Trial)
    (dimension' : string) (startTime : Q) (document : Dom) (events : list Event) :
  timers (run state hasSpeech trial dimension' false startTime document events)
    = [mkTimer (startTime + 5000) Prompt]
  \/ timers (run state hasSpeech trial dimension' false startTime document events) = [].
Proof.
  unfold run.
  assert (Hfold : forall p,
             timers p = [mkTimer (startTime + 5000) Prompt] \/ timers p = [] ->
             timers (fold_left (step state hasSpeech trial false startTime) events p)
               = [mkTimer (startTime + 5000) Prompt]
             \/ timers (fold_left (step state hasSpeech trial false startTime) events p)
                = []).
  { induction events as [| e evs IH]; intros p Hp; [exact Hp |].
    simpl. apply IH, step_only_reminder, Hp. }
  apply Hfold. left. unfold setupTrial. simpl.
  destruct (playAudio_frame state hasSpeech (toUpperCase dimension')
              (mkPage false document [] [] [])) as [_ [_ [_ Ht]]].
  rewrite Ht. reflexivity.
Qed.

(** C8, amended: a trial set up without feedback schedules the reminder,
    five seconds after the set-up clock, and through all its clicks and
    timer runs never has any other timer pending; when the reminder runs it
    leaves the page untouched if a response was accepted or the
    current-trial accessor is null, and otherwise does nothing but play the
    prompt.  The feedback timer looks at neither: whenever it runs it
    reports its result; it is never pending before a click on a card, and
    while it is pending the latch is set. *)
Theorem timers_checked_or_not (state : GameState) (hasSpeech : bool) (trial : Trial)
    (dimension' : string) (withFeedback : bool) (startTime : Q) (document : Dom)
    (events : list Event) (now : Q) (currentTrial : bool) :
  let p := run state hasSpeech trial dimension' withFeedback startTime document events in
  let q := run state hasSpeech trial dimension' false startTime document events in
  timers (setupTrial state hasSpeech dimension' false startTime document)
    = [mkTimer (startTime + 5000) Prompt]
  /\ (timers q = [mkTimer (startTime + 5000) Prompt] \/ timers q = [])
  /\ (responded p = true \/ currentTrial = false ->
        runCallback state hasSpeech startTime Prompt now currentTrial p = p)
  /\ (responded p = false -> currentTrial = true ->
        runCallback state hasSpeech startTime Prompt now currentTrial p
          = playAudio state hasSpeech "Choose one of the pictures." p)
  /\ (forall i c,
        finished (runCallback state hasSpeech startTime (FinishTrial i c) now currentTrial p)
          = finished p ++ [TrialData.mk i c (now - startTime)])
  /\ (forall tm, In tm (timers p) -> isFinish tm = true -> responded p = true)
  /\ (firstClick (length (cards document)) events = None ->
        pendingFinish (timers p) = []).
Proof.
  intros p q. split; [| split; [| split; [| split; [| split; [| split]]]]].
  - unfold setupTrial. simpl.
    destruct (playAudio_frame state hasSpeech (toUpperCase dimension')
                (mkPage false document [] [] [])) as [_ [_ [_ Ht]]].
    rewrite Ht. reflexivity.
  - apply run_only_reminder.
  - intros [Hr | Hc]; simpl.
    + rewrite Hr. reflexivity.
    + rewrite Hc, andb_false_r. reflexivity.
  - intros Hr Hc. simpl. rewrite Hr, Hc. reflexivity.
  - intros i c. reflexivity.
  - intros tm Hin Hfin.
    pose proof (run_reaches_latched state hasSpeech trial dimension' withFeedback
                  startTime document events) as [_ [_ Hacc]].
    fold p in Hacc.
    destruct (firstClick (length (cards document)) events) as [[i t] |].
    + destruct Hacc as [Hr _]. exact Hr.
    + destruct Hacc as [_ [_ Hnone]].
      assert (Hmem : In tm (pendingFinish (timers p)))
        by (apply filter_In; split; assumption).
      rewrite Hnone in Hmem. destruct Hmem.
  - intros Hnone.
    pose proof (run_reaches_latched state hasSpeech trial dimension' withFeedback
                  startTime document events) as [_ [_ Hacc]].
    fold p in Hacc. rewrite Hnone in Hacc. destruct Hacc as [_ [_ Hpf]]. exact Hpf.
Qed.

(** ** Feedback *)

(** C10: on a trial set up with feedback whose page has the feedback
    element, an accepted click on a card other than [trial.correct] shows
    "This is the same color." and asks the speech synthesis for the colour
    wording, whatever the dimension of the trial; an accepted click on the
    card [trial.correct] shows "That's right!". *)
Theorem incorrect_feedback_is_colour_worded (state : GameState) (hasSpeech : bool)
    (trial : Trial) (startTime : Q) (p : Page) (i : nat) (now : Q)
    (Hfresh : responded p = false)
    (Hdiv : feedbackDiv (dom p) <> None)
    (Hcard : (i < length (cards (dom p)))%nat) :
  let p' := step state hasSpeech trial true startTime p (Click i now) in
  (Z.of_nat i <> correct trial ->
     feedbackDiv (dom p')
       = Some (mkFeedbackDiv "This is the same color." "dccs-feedback incorrect")
     /\ spoken p'
        = if audio_enabled state && hasSpeech
          then spoken p ++ ["This is the same color, so you should choose this picture."]
          else spoken p)
  /\ (Z.of_nat i = correct trial ->
     feedbackDiv (dom p') = Some (mkFeedbackDiv "That's right!" "dccs-feedback correct")).
Proof.
  intros p'. subst p'. simpl.
  apply Nat.ltb_lt in Hcard. rewrite Hcard.
  unfold onClick. rewrite Hfresh. simpl.
  destruct (feedbackDiv (dom p)) as [fb |]; [clear Hdiv | contradiction].
  split; intros Hi.
  - apply Z.eqb_neq in Hi. rewrite Hi.
    unfold playAudio. destruct (audio_enabled state && hasSpeech); simpl;
      destruct (highlight (cards (dom p)) (correct trial)); simpl; split; reflexivity.
  - apply Z.eqb_eq in Hi. rewrite Hi.
    unfold playAudio. destruct (audio_enabled state && hasSpeech); reflexivity.
Qed.

Lemma incorrect_feedback_is_colour_worded_witness :
  let p := setupTrial (mkGameState true "mixed" 0) true "shape" true 0
             (cueOf shapeTrial "SHAPE") in
  let p' := step (mkGameState true "mixed" 0) true shapeTrial true 0 p (Click 0 900) in
  feedbackDiv (dom p')
    = Some (mkFeedbackDiv "This is the same color." "dccs-feedback incorrect")
  /\ spoken p'
     = ["SHAPE"; "This is the same color, so you should choose this picture."].
Proof.
  intros p p'.
  refine (proj1 (incorrect_feedback_is_colour_worded
                   (mkGameState true "mixed" 0) true shapeTrial 0 p 0 900
                   eq_refl _ _) _).
  - discriminate.
  - simpl. lia.
  - discriminate.
Defined.

(** ** The summary *)

Lemma filter_filter {A : Type} (f g : A -> bool) (l : list A) :
  filter f (filter g l) = filter (fun x => g x && f x) l.
Proof.
  induction l as [| x l IH]; [reflexivity |].
  simpl. destruct (g x); simpl; [destruct (f x) |]; rewrite IH; reflexivity.
Qed.

Lemma filterPhase_filterTask (ph : Phase) (jsPsychData : list DataRow.t) :
  filterPhase (phaseLabel ph) (filterTask "dccs" jsPsychData) = recorded ph jsPsychData.
Proof.
  unfold filterPhase, filterTask, recorded. rewrite filter_filter.
  apply filter_ext. intros r.
  destruct (DataRow.task r) as [t |], (DataRow.phase r) as [q |];
    rewrite ?andb_false_r; reflexivity.
Qed.

Lemma cellOf_createResults (ph : Phase) (jsPsychData : list DataRow.t) :
  cellOf ph (createResults jsPsychData) = (toFixed0 (accuracy ph jsPsychData) ++ "%")%string.
Proof.
  unfold accuracy, recordedCorrect. rewrite <- filterPhase_filterTask.
  destruct ph; reflexivity.
Qed.

(** *** Rounding to the nearest double *)

Lemma pow2_pos (k : Z) : 0 < pow2 k.
Proof. apply Qpower_0_lt. reflexivity. Qed.

Lemma pow2_plus (a b : Z) : pow2 (a + b) == pow2 a * pow2 b.
Proof. apply Qpower_plus. discriminate. Qed.

Lemma pow2_le (a b : Z) : (a <= b)%Z -> pow2 a <= pow2 b.
Proof. intros H. apply Qpower_le_compat_l; [exact H | discriminate]. Qed.

Lemma pow2_lt_inv (a b : Z) : pow2 a < pow2 b -> (a < b)%Z.
Proof. intros H. apply (Qpower_lt_compat_l_inv 2); [exact H | reflexivity]. Qed.

Lemma pow2_inject (n : Z) : (0 <= n)%Z -> pow2 n == inject_Z (2 ^ n).
Proof. intros H. unfold pow2. rewrite Zpower_Qpower by exact H. reflexivity. Qed.

Lemma pow2_double (k : Z) : pow2 (k + 1) == 2 * pow2 k.
Proof. rewrite pow2_plus. change (pow2 1) with 2. ring. Qed.

Lemma floorLog2_le (q : Q) : 0 < q -> pow2 (floorLog2 q) <= q.
Proof.
  intros Hq. unfold floorLog2.
  set (ln := Z.log2 (Qnum q)). set (ld := Z.log2 (Zpos (Qden q))).
  set (k := (ln - ld)%Z).
  destruct (Qle_bool (pow2 k) q) eqn:Htest; [apply Qle_bool_iff, Htest |].
  assert (Hn : (0 < Qnum q)%Z).
  { unfold Qlt in Hq. simpl in Hq. lia. }
  pose proof (Z.log2_spec (Qnum q) Hn) as [Hlo _].
  pose proof (Z.log2_spec (Zpos (Qden q)) ltac:(lia)) as [_ Hhi].
  pose proof (Z.log2_nonneg (Qnum q)) as Hln.
  pose proof (Z.log2_nonneg (Zpos (Qden q))) as Hld.
  fold ln in Hlo, Hln. fold ld in Hhi, Hld.
  assert (Hsum : (k - 1 + (ld + 1))%Z = ln) by (subst k; lia).
  assert (Hprod : pow2 (k - 1) * pow2 (ld + 1) == pow2 ln).
  { rewrite <- pow2_plus, Hsum. reflexivity. }
  assert (Hqd : q == inject_Z (Qnum q) / inject_Z (Zpos (Qden q))).
  { destruct q as [n d]. apply Qmake_Qdiv. }
  rewrite Hqd.
  apply Qle_shift_div_l; [reflexivity |].
  apply Qle_trans with (pow2 (k - 1) * pow2 (ld + 1)).
  - apply Qmult_le_l; [apply pow2_pos |].
    rewrite pow2_inject by lia. rewrite <- Zle_Qle. unfold Z.succ in Hhi. lia.
  - rewrite Hprod, pow2_inject by lia. rewrite <- Zle_Qle. exact Hlo.
Qed.

Lemma floorLog2_lt (q : Q) : 0 < q -> q < pow2 (floorLog2 q + 1).
Proof.
  intros Hq. unfold floorLog2.
  set (ln := Z.log2 (Qnum q)). set (ld := Z.log2 (Zpos (Qden q))).
  set (k := (ln - ld)%Z).
  destruct (Qle_bool (pow2 k) q) eqn:Htest.
  - assert (Hn : (0 < Qnum q)%Z).
    { unfold Qlt in Hq. simpl in Hq. lia. }
    pose proof (Z.log2_spec (Qnum q) Hn) as [_ Hhi].
    pose proof (Z.log2_spec (Zpos (Qden q)) ltac:(lia)) as [Hlo _].
    pose proof (Z.log2_nonneg (Qnum q)) as Hln.
    pose proof (Z.log2_nonneg (Zpos (Qden q))) as Hld.
    fold ln in Hhi, Hln. fold ld in Hlo, Hld.
    assert (Hsum : (k + 1 + ld)%Z = (ln + 1)%Z) by (subst k; lia).
    assert (Hprod : pow2 (k + 1) * pow2 ld == pow2 (ln + 1)).
    { rewrite <- pow2_plus, Hsum. reflexivity. }
    assert (Hqd : q == inject_Z (Qnum q) / inject_Z (Zpos (Qden q))).
    { destruct q as [n d]. apply Qmake_Qdiv. }
    rewrite Hqd.
    apply Qlt_shift_div_r; [reflexivity |].
    apply Qlt_le_trans with (pow2 (k + 1) * pow2 ld).
    + rewrite Hprod, pow2_inject by lia. rewrite <- Zlt_Qlt.
      unfold Z.succ in Hhi. lia.
    + apply Qmult_le_l; [apply pow2_pos |].
      rewrite pow2_inject by lia. rewrite <- Zle_Qle. exact Hlo.
  - replace (k - 1 + 1)%Z with k by lia.
    apply Qnot_le_lt. intros Hle. apply Qle_bool_iff in Hle. congruence.
Qed.

Lemma roundHalfEven_near (r : Q) :
  inject_Z (roundHalfEven r) - (1 # 2) <= r
  /\ r <= inject_Z (roundHalfEven r) + (1 # 2)
  /\ (0 <= r -> 0 <= inject_Z (roundHalfEven r)).
Proof.
  unfold roundHalfEven.
  pose proof (Qfloor_le r) as Hlo. pose proof (Qlt_floor r) as Hhi.
  rewrite inject_Z_plus in Hhi. change (inject_Z 1) with 1 in Hhi.
  assert (Hnn : 0 <= r -> 0 <= inject_Z (Qfloor r)).
  { intros H. change 0 with (inject_Z 0). rewrite <- Zle_Qle.
    change 0%Z with (Qfloor 0). apply Qfloor_resp_le, H. }
  set (f := Qfloor r) in *.
  destruct (Qcompare (r - inject_Z f) (1 # 2)) eqn:Hc.
  - apply Qeq_alt in Hc. destruct (Z.even f).
    + split; [lra | split; [lra | exact Hnn]].
    + rewrite inject_Z_plus. change (inject_Z 1) with 1.
      split; [lra | split; [lra |]]. intros H. specialize (Hnn H). lra.
  - apply Qlt_alt in Hc. split; [lra | split; [lra | exact Hnn]].
  - apply Qgt_alt in Hc. rewrite inject_Z_plus. change (inject_Z 1) with 1.
    split; [lra | split; [lra |]]. intros H. specialize (Hnn H). lra.
Qed.

Lemma double_proper (q q' : Q) : q == q' -> double q = double q'.
Proof. intros H. unfold double. rewrite (Qred_complete q q' H). reflexivity. Qed.

Lemma double_near (q : Q) (K : Z) :
  0 <= q -> q < pow2 K -> (-1021 <= K <= 1023)%Z ->
  exists r, double q = Num r /\ 0 <= r
            /\ q - pow2 (K - 53) <= r /\ r <= q + pow2 (K - 53).
Proof.
  intros Hq HK HKr. unfold double.
  pose proof (Qred_correct q) as Hred. set (q' := Qred q) in *.
  assert (Ha : Qabs q' == q) by (rewrite Qabs_pos; [exact Hred | rewrite Hred; exact Hq]).
  set (a := Qabs q') in *.
  pose proof (pow2_pos (K - 53)) as Hd.
  destruct (Qeq_bool a 0) eqn:Hz.
  - apply Qeq_bool_iff in Hz. exists 0. split; [reflexivity |].
    rewrite Hz in Ha. repeat split; lra.
  - apply Qeq_bool_neq in Hz.
    assert (Hapos : 0 < a) by (apply Qle_lteq in Hq; destruct Hq as [H | H]; lra).
    pose proof (floorLog2_le a Hapos) as Hk. set (k := floorLog2 a) in *.
    assert (HkK : (k < K)%Z) by (apply pow2_lt_inv; lra).
    set (e := Z.max (k - 52) (-1074)).
    assert (He : (e <= K - 53)%Z) by (subst e; lia).
    pose proof (pow2_pos e) as HE. pose proof (pow2_le e (K - 53) He) as HEle.
    destruct (roundHalfEven_near (a / pow2 e)) as [Hlo [Hhi Hnn]].
    set (m := inject_Z (roundHalfEven (a / pow2 e))) in *.
    assert (Hdiv : a / pow2 e * pow2 e == a) by (field; lra).
    assert (Hmlo : m * pow2 e - pow2 e * (1 # 2) <= a).
    { rewrite <- Hdiv. setoid_replace (m * pow2 e - pow2 e * (1 # 2))
        with ((m - (1 # 2)) * pow2 e) by ring.
      apply Qmult_le_compat_r; lra. }
    assert (Hmhi : a <= m * pow2 e + pow2 e * (1 # 2)).
    { rewrite <- Hdiv at 1. setoid_replace (m * pow2 e + pow2 e * (1 # 2))
        with ((m + (1 # 2)) * pow2 e) by ring.
      apply Qmult_le_compat_r; lra. }
    assert (Hm0 : 0 <= m * pow2 e).
    { apply Qmult_le_0_compat; [| lra]. apply Hnn.
      apply Qle_shift_div_l; lra. }
    assert (Hover : Qle_bool (pow2 1024) (m * pow2 e) = false).
    { destruct (Qle_bool (pow2 1024) (m * pow2 e)) eqn:Ht; [| reflexivity].
      apply Qle_bool_iff in Ht.
      pose proof (pow2_le (K + 1) 1024 ltac:(lia)) as Htop.
      pose proof (pow2_double K) as H2.
      pose proof (pow2_le (K - 53) K ltac:(lia)) as Hsm.
      lra. }
    rewrite Hover.
    assert (Hsign : Qle_bool 0 q' = true) by (apply Qle_bool_iff; lra).
    rewrite Hsign. exists (m * pow2 e).
    split; [reflexivity |]. repeat split; lra.
Qed.

Lemma percent_near (c t : Z) :
  (0 <= c <= t)%Z -> (0 < t)%Z ->
  exists y z,
    double (inject_Z c / inject_Z t) = Num y
    /\ double (y * 100) = Num z
    /\ 0 <= z
    /\ inject_Z c / inject_Z t * 100 - pow2 (-44) <= z
    /\ z <= inject_Z c / inject_Z t * 100 + pow2 (-44).
Proof.
  intros Hc Ht.
  assert (HT : 0 < inject_Z t) by (change 0 with (inject_Z 0); rewrite <- Zlt_Qlt; lia).
  assert (HC : 0 <= inject_Z c) by (change 0 with (inject_Z 0); rewrite <- Zle_Qle; lia).
  assert (HCT : inject_Z c <= inject_Z t) by (rewrite <- Zle_Qle; lia).
  set (x := inject_Z c / inject_Z t).
  assert (Hx0 : 0 <= x) by (apply Qle_shift_div_l; lra).
  assert (Hx1 : x <= 1) by (apply Qle_shift_div_r; lra).
  destruct (double_near x 1) as [y [Hy [Hy0 [Hylo Hyhi]]]];
    [exact Hx0 | change (pow2 1) with 2; lra | lia |].
  assert (E52 : pow2 (1 - 53) == 1 # 4503599627370496) by reflexivity.
  rewrite E52 in Hylo, Hyhi.
  destruct (double_near (y * 100) 7) as [z [Hz [Hz0 [Hzlo Hzhi]]]];
    [lra | change (pow2 7) with 128; lra | lia |].
  assert (E46 : pow2 (7 - 53) == 1 # 70368744177664) by reflexivity.
  rewrite E46 in Hzlo, Hzhi.
  assert (E44 : pow2 (-44) == 1 # 17592186044416) by reflexivity.
  exists y, z. rewrite E44.
  split; [exact Hy | split; [exact Hz | split; [exact Hz0 | split; lra]]].
Qed.

Lemma nearest_by_gap (c t d : Z) (z : Q) :
  (0 < t < 2 ^ 32)%Z ->
  inject_Z c / inject_Z t * 100 - pow2 (-44) <= z ->
  z <= inject_Z c / inject_Z t * 100 + pow2 (-44) ->
  inject_Z d <= z + (1 # 2) -> z + (1 # 2) < inject_Z d + 1 ->
  inject_Z d - (1 # 2) <= inject_Z c / inject_Z t * 100
  /\ inject_Z c / inject_Z t * 100 <= inject_Z d + (1 # 2).
Proof.
  intros Ht Hlo Hhi Hdlo Hdhi.
  assert (E44 : pow2 (-44) == 1 # 17592186044416) by reflexivity.
  rewrite E44 in Hlo, Hhi.
  assert (HT : 0 < inject_Z t) by (change 0 with (inject_Z 0); rewrite <- Zlt_Qlt; lia).
  assert (HT32 : inject_Z t < 4294967296).
  { change 4294967296 with (inject_Z (2 ^ 32)). rewrite <- Zlt_Qlt. lia. }
  set (X := inject_Z c / inject_Z t * 100) in *.
  assert (HXT : X * inject_Z t == 100 * inject_Z c) by (subst X; field; lra).
  set (C := inject_Z c) in *. set (T := inject_Z t) in *. set (D := inject_Z d) in *.
  split.
  - (* X is not more than one half below d *)
    destruct (Z_lt_le_dec (200 * c) ((2 * d - 1) * t)) as [Hz | Hz].
    + exfalso.
      assert (Hq : 200 * C + 1 <= (2 * D - 1) * T).
      { subst C D T.
        change 200 with (inject_Z 200). change 2 with (inject_Z 2).
        change 1 with (inject_Z 1).
        rewrite <- !inject_Z_mult, <- inject_Z_plus.
        unfold Qminus. change (- inject_Z 1) with (inject_Z (- 1)).
        rewrite <- inject_Z_plus, <- inject_Z_mult, <- Zle_Qle. lia. }
      assert (Hm : (D - (1 # 2) - (1 # 17592186044416)) * T <= X * T)
        by (apply Qmult_le_compat_r; lra).
      assert (Heps : (1 # 17592186044416) * T <= 1 # 4096).
      { setoid_replace (1 # 4096) with ((1 # 17592186044416) * 4294967296) by reflexivity.
        apply Qmult_le_l; [reflexivity | lra]. }
      nra.
    + assert (Hq : (2 * D - 1) * T <= 200 * C).
      { subst C D T.
        change 200 with (inject_Z 200). change 2 with (inject_Z 2).
        change 1 with (inject_Z 1).
        rewrite <- !inject_Z_mult.
        unfold Qminus. change (- inject_Z 1) with (inject_Z (- 1)).
        rewrite <- inject_Z_plus, <- inject_Z_mult, <- Zle_Qle. lia. }
      apply (Qmult_le_r _ _ T HT). nra.
  - destruct (Z_lt_le_dec ((2 * d + 1) * t) (200 * c)) as [Hz | Hz].
    + exfalso.
      assert (Hq : (2 * D + 1) * T + 1 <= 200 * C).
      { subst C D T.
        change 200 with (inject_Z 200). change 2 with (inject_Z 2).
        change 1 with (inject_Z 1).
        rewrite <- !inject_Z_mult, <- !inject_Z_plus, <- inject_Z_mult, <- inject_Z_plus,
          <- Zle_Qle. lia. }
      assert (Hm : X * T <= (D + (1 # 2) + (1 # 17592186044416)) * T)
        by (apply Qmult_le_compat_r; lra).
      assert (Heps : (1 # 17592186044416) * T <= 1 # 4096).
      { setoid_replace (1 # 4096) with ((1 # 17592186044416) * 4294967296) by reflexivity.
        apply Qmult_le_l; [reflexivity | lra]. }
      nra.
    + assert (Hq : 200 * C <= (2 * D + 1) * T).
      { subst C D T.
        change 200 with (inject_Z 200). change 2 with (inject_Z 2).
        change 1 with (inject_Z 1).
        rewrite <- !inject_Z_mult, <- !inject_Z_plus, <- inject_Z_mult,
          <- Zle_Qle. lia. }
      apply (Qmult_le_r _ _ T HT). nra.
Qed.

(** On all counts up to 48 of 48 the accuracy computed here is the one the
    Standard Library's binary64 division and multiplication give, zero
    totals included. *)
Lemma percent_agrees_with_SpecFloat :
  forallb (fun ct => sameNumber (percent (fst ct) (snd ct))
                       (percentSpecFloat (fst ct) (snd ct)))
          (countPairs 48) = true.
Proof. vm_compute. reflexivity. Qed.

(** On operands that reach the corners of the format (ties, subnormal
    results, underflow to zero, overflow, zero divisors) [div] and [mul]
    give what the library's binary64 operations give. *)
Lemma div_mul_agree_with_SpecFloat :
  forallb (fun abc => sameNumbers (chainOurs abc) (chainSpecFloat abc))
          operandSamples = true.
Proof. vm_compute. reflexivity. Qed.

(** 23 of 40 is shown as 57%, 29 of 200 as 14%, 1 of 8 as 13%. *)
Lemma percent_samples :
  toFixed0 (percent 23 40) = "57" /\ toFixed0 (percent 29 200) = "14"
  /\ toFixed0 (percent 1 8) = "13" /\ toFixed0 (percent 1 3) = "33".
Proof. vm_compute. repeat split. Qed.

Lemma filter_length_le' {A : Type} (f : A -> bool) (l : list A) :
  (length (filter f l) <= length l)%nat.
Proof.
  induction l as [| x l IH]; simpl; [lia |]. destruct (f x); simpl; lia.
Qed.

Lemma accuracy_nonempty (ph : Phase) (jsPsychData : list DataRow.t) :
  recorded ph jsPsychData <> [] ->
  accuracy ph jsPsychData
    = mul (double (inject_Z (Z.of_nat (length (recordedCorrect ph jsPsychData)))
                   / inject_Z (Z.of_nat (length (recorded ph jsPsychData)))))
          (Num 100).
Proof.
  intros Hne. unfold accuracy, count, div.
  destruct (Qeq_bool (inject_Z (Z.of_nat (length (recorded ph jsPsychData)))) 0) eqn:Hz;
    [| reflexivity].
  apply Qeq_bool_iff in Hz. exfalso.
  assert (Hpos : 0 < inject_Z (Z.of_nat (length (recorded ph jsPsychData)))).
  { change 0 with (inject_Z 0). rewrite <- Zlt_Qlt.
    destruct (recorded ph jsPsychData); [contradiction | simpl; lia]. }
  lra.
Qed.

(** The counts of a phase with results. *)
Lemma recorded_counts (ph : Phase) (jsPsychData : list DataRow.t) :
  recorded ph jsPsychData <> [] ->
  (0 <= Z.of_nat (length (recordedCorrect ph jsPsychData))
     <= Z.of_nat (length (recorded ph jsPsychData)))%Z
  /\ (0 < Z.of_nat (length (recorded ph jsPsychData)))%Z.
Proof.
  intros Hne.
  pose proof (filter_length_le'
                (fun r => match DataRow.correct r with Some true => true | _ => false end)
                (recorded ph jsPsychData)) as Hle.
  fold (recordedCorrect ph jsPsychData) in Hle.
  destruct (recorded ph jsPsychData) eqn:Hrec; [contradiction |].
  simpl length in *. lia.
Qed.

(** C6: for a phase with at least one recorded result (and fewer than
    2^32, the most an array holds), the accuracy cell of the summary shows
    an integer nearest to (correct results of the phase) / (all results of
    the phase) * 100, followed by the percent sign; with 5 results of which
    4 are correct it shows 80%. *)
Theorem summary_accuracy (ph : Phase) (jsPsychData : list DataRow.t)
    (Hsome : recorded ph jsPsychData <> [])
    (Hlen : (Z.of_nat (length (recorded ph jsPsychData)) < 2 ^ 32)%Z) :
  let total := inject_Z (Z.of_nat (length (recorded ph jsPsychData))) in
  let hits := inject_Z (Z.of_nat (length (recordedCorrect ph jsPsychData))) in
  (exists d : Z,
     cellOf ph (createResults jsPsychData) = (decimal d ++ "%")%string
     /\ inject_Z d - (1 # 2) <= hits / total * 100
     /\ hits / total * 100 <= inject_Z d + (1 # 2))
  /\ (length (recorded ph jsPsychData) = 5%nat ->
      length (recordedCorrect ph jsPsychData) = 4%nat ->
      cellOf ph (createResults jsPsychData) = "80%").
Proof.
  intros total hits. rewrite cellOf_createResults, accuracy_nonempty by assumption.
  split.
  - destruct (recorded_counts ph jsPsychData Hsome) as [Hc Ht].
    destruct (percent_near _ _ Hc Ht) as [y [z [Hy [Hz [Hz0 [Hlo Hhi]]]]]].
    rewrite Hy. change (mul (Num y) (Num 100)) with (double (y * 100)). rewrite Hz.
    exists (Qfloor (z + (1 # 2))). unfold toFixed0.
    apply Qle_bool_iff in Hz0. rewrite Hz0. split; [reflexivity |].
    pose proof (Qfloor_le (z + (1 # 2))) as Hdlo.
    pose proof (Qlt_floor (z + (1 # 2))) as Hdhi.
    rewrite inject_Z_plus in Hdhi. change (inject_Z 1) with 1 in Hdhi.
    apply (nearest_by_gap _ _ _ z); try assumption. lia.
  - intros H5 H4. rewrite H5, H4. vm_compute. reflexivity.
Qed.

Lemma summary_accuracy_witness :
  cellOf Mixed (createResults sampleData) = "80%".
Proof.
  refine (proj2 (summary_accuracy Mixed sampleData _ _) eq_refl eq_refl).
  - discriminate.
  - reflexivity.
Defined.

(** C9: a phase without any recorded result gets no guard: the division is
    0 / 0 and its cell shows NaN. *)
Theorem summary_empty_phase_is_NaN (ph : Phase) (jsPsychData : list DataRow.t)
    (Hnone : recorded ph jsPsychData = []) :
  accuracy ph jsPsychData = NaN
  /\ cellOf ph (createResults jsPsychData) = "NaN%".
Proof.
  rewrite cellOf_createResults.
  unfold accuracy, recordedCorrect. rewrite Hnone. split; reflexivity.
Qed.

Lemma summary_empty_phase_is_NaN_witness :
  accuracy ShapeTest sampleData = NaN
  /\ cellOf ShapeTest (createResults sampleData) = "NaN%".
Proof. apply (summary_empty_phase_is_NaN ShapeTest sampleData). reflexivity. Defined.

(** * Further properties *)

(** ** The generator, draw by draw *)

(** A draw outside [0, 1) finds no target in the pool. *)
Lemma draw_out_of_pool (r : Q) :
  r < 0 \/ 1 <= r ->
  lookup testStimuli (Qfloor (r * inject_Z (Z.of_nat (length testStimuli)))) = None.
Proof.
  intros H. simpl length. change (inject_Z (Z.of_nat 4)) with (4 # 1).
  unfold lookup. destruct H as [Hneg | Hbig].
  - assert (Hz : (Qfloor (r * (4 # 1)) < 0)%Z).
    { rewrite Zlt_Qlt. eapply Qle_lt_trans; [apply Qfloor_le |].
      change (inject_Z 0) with 0. lra. }
    apply Z.ltb_lt in Hz. rewrite Hz. reflexivity.
  - assert (Hz : (4 <= Qfloor (r * (4 # 1)))%Z).
    { change (Qfloor (4 # 1) <= Qfloor (r * (4 # 1)))%Z. apply Qfloor_resp_le. lra. }
    destruct (Qfloor (r * (4 # 1)) <? 0)%Z; [reflexivity |].
    apply nth_error_None. unfold testStimuli. simpl length. lia.
Qed.

Lemma draw_decide (r : Q) : (0 <= r /\ r < 1) \/ (r < 0 \/ 1 <= r).
Proof.
  destruct (Qlt_le_dec r 0); [right; left; assumption |].
  destruct (Qlt_le_dec r 1); [left; split; assumption | right; right; assumption].
Qed.

Lemma mixedTrial_None (random : nat -> Q) (i k : nat) :
  mixedTrial random i k = None <-> (random k < 0 \/ 1 <= random k).
Proof.
  split.
  - intros Hnone. destruct (draw_decide (random k)) as [[H0 H1] | Hout]; [| assumption].
    pose proof (draw_in_pool _ H0 H1) as Hz.
    unfold mixedTrial, lookup in Hnone.
    set (z := Qfloor _) in *.
    destruct (z <? 0)%Z eqn:Hneg; [apply Z.ltb_lt in Hneg; lia |].
    destruct (nth_error testStimuli (Z.to_nat z)) eqn:Hnth; [discriminate Hnone |].
    apply nth_error_None in Hnth. unfold testStimuli in Hnth. simpl length in Hnth. lia.
  - intros Hout. unfold mixedTrial. rewrite (draw_out_of_pool _ Hout). reflexivity.
Qed.

(** The loop, pass by pass: pass [j] reads the draws [k + 2j] and
    [k + 2j + 1]. *)
Lemma generateLoop_passes (random : nat -> Q) :
  forall todo i k acc l,
  generateLoop random todo i k acc = Some l ->
  exists l', l = acc ++ l' /\ length l' = todo
             /\ forall j, (j < todo)%nat ->
                  nth_error l' j = mixedTrial random (i + j) (k + 2 * j).
Proof.
  induction todo as [| todo IH]; intros i k acc l H; simpl in H.
  - injection H as <-. exists []. rewrite app_nil_r.
    split; [reflexivity | split; [reflexivity | intros j Hj; lia]].
  - destruct (mixedTrial random i k) as [t |] eqn:Ht; [| discriminate H].
    destruct (IH _ _ _ _ H) as [l' [-> [Hlen Hall]]].
    exists (t :: l'). rewrite <- app_assoc. simpl.
    split; [reflexivity | split; [congruence |]].
    intros [| j] Hj; simpl.
    + rewrite !Nat.add_0_r. symmetry. exact Ht.
    + rewrite (Hall j) by lia. f_equal; lia.
Qed.

Lemma generateLoop_None (random : nat -> Q) :
  forall todo i k acc,
  generateLoop random todo i k acc = None <->
  exists j, (j < todo)%nat /\ mixedTrial random (i + j) (k + 2 * j) = None.
Proof.
  induction todo as [| todo IH]; intros i k acc; simpl.
  - split; [discriminate | intros [j [Hj _]]; lia].
  - destruct (mixedTrial random i k) as [t |] eqn:Ht.
    + rewrite IH. split.
      * intros [j [Hj Hn]]. exists (S j). split; [lia |].
        rewrite <- Hn. f_equal; lia.
      * intros [[| j] [Hj Hn]].
        -- rewrite !Nat.add_0_r in Hn. congruence.
        -- exists j. split; [lia |]. rewrite <- Hn. f_equal; lia.
    + split; [| reflexivity]. intros _. exists 0%nat.
      split; [lia |]. rewrite !Nat.add_0_r. exact Ht.
Qed.

(** X1: the trial at index [i] of a generated list is made from the draws
    [2i] and [2i+1] alone: the first picks the target out of the pool of
    four, the second decides the order of the two choices, which are always
    the blue ball and the orange truck. *)
Theorem generateMixedTrials_draws (random : nat -> Q) (n : nat) (l : list Trial)
    (i : nat) (t : Trial)
    (Hgen : generateMixedTrials random n = Some l)
    (Hnth : nth_error l i = Some t) :
  lookup testStimuli (Qfloor (random (2 * i)%nat * 4)) = Some (target t)
  /\ (left t, right t) = choicesFor (random (S (2 * i)))
  /\ In (target t) testStimuli
  /\ ((left t, right t) = (STIMULI.blueBall, STIMULI.orangeTruck)
      \/ (left t, right t) = (STIMULI.orangeTruck, STIMULI.blueBall)).
Proof.
  destruct (generateLoop_passes random n 0 0 [] l Hgen) as [l' [-> [Hlen Hall]]].
  simpl in Hnth.
  assert (Hi : (i < n)%nat).
  { rewrite <- Hlen. apply nth_error_Some. congruence. }
  rewrite (Hall i Hi) in Hnth.
  change (0 + i)%nat with i in Hnth. change (0 + 2 * i)%nat with (2 * i)%nat in Hnth.
  unfold mixedTrial in Hnth.
  change (inject_Z (Z.of_nat (length testStimuli))) with (4 : Q) in Hnth.
  destruct (lookup testStimuli (Qfloor (random (2 * i)%nat * 4))) as [tg |] eqn:Htg;
    [| discriminate Hnth].
  injection Hnth as <-. simpl.
  split; [reflexivity | split; [destruct (choicesFor _); reflexivity | split]].
  - unfold lookup in Htg. destruct (_ <? 0)%Z; [discriminate Htg |].
    apply nth_error_In in Htg. exact Htg.
  - unfold choicesFor. destruct (Qlt_le_dec _ _); [right | left]; reflexivity.
Qed.

Lemma generateMixedTrials_draws_witness :
  let t := mkTrial STIMULI.blueTruck STIMULI.blueBall STIMULI.orangeTruck 0 (Some "color") in
  lookup testStimuli (Qfloor (alwaysHalf 0 * 4)) = Some (target t)
  /\ (left t, right t) = choicesFor (alwaysHalf 1).
Proof.
  intros t.
  pose proof (generateMixedTrials_draws alwaysHalf 1 [t] 0 t eq_refl eq_refl)
    as [H1 [H2 _]].
  split; [exact H1 | exact H2].
Defined.

Lemma generateMixedTrials_fails_iff_helper (random : nat -> Q) (n : nat) :
  generateMixedTrials random n = None <->
  exists i, (i < n)%nat /\ (random (2 * i)%nat < 0 \/ 1 <= random (2 * i)%nat).
Proof.
  unfold generateMixedTrials. rewrite generateLoop_None.
  split; intros [j [Hj H]]; exists j; (split; [assumption |]);
    change (0 + j)%nat with j in *; change (0 + 2 * j)%nat with (2 * j)%nat in *;
    apply (mixedTrial_None random j (2 * j)); exact H.
Qed.

(** X2: the generator throws exactly when a draw that picks a target falls
    outside [0, 1); the draws that decide the swap never make it fail. *)
Theorem generateMixedTrials_fails_iff (random : nat -> Q) (n : nat) :
  generateMixedTrials random n = None <->
  exists i, (i < n)%nat /\ (random (2 * i)%nat < 0 \/ 1 <= random (2 * i)%nat).
Proof. apply generateMixedTrials_fails_iff_helper. Qed.

(** X3: a run for [n] trials reads the first [2n] draws and no other: two
    sources that agree on them give the same result. *)
Theorem generateMixedTrials_reads_2n_draws (r1 r2 : nat -> Q) (n : nat)
    (Hagree : forall k, (k < 2 * n)%nat -> r1 k = r2 k) :
  generateMixedTrials r1 n = generateMixedTrials r2 n.
Proof.
  unfold generateMixedTrials.
  assert (Hloop : forall todo i k acc,
             (forall j, (j < 2 * todo)%nat -> r1 (k + j)%nat = r2 (k + j)%nat) ->
             generateLoop r1 todo i k acc = generateLoop r2 todo i k acc).
  { induction todo as [| todo IH]; intros i k acc H; [reflexivity |].
    simpl. unfold mixedTrial.
    pose proof (H 0%nat ltac:(lia)) as H0. pose proof (H 1%nat ltac:(lia)) as H1.
    rewrite Nat.add_0_r in H0. rewrite Nat.add_1_r in H1.
    rewrite H0, H1.
    destruct (lookup testStimuli _); [| reflexivity].
    apply IH. intros j Hj.
    replace (S (S k) + j)%nat with (k + (2 + j))%nat by lia. apply H. lia. }
  apply Hloop. intros j Hj. apply Hagree. exact Hj.
Qed.

Lemma generateMixedTrials_reads_2n_draws_witness :
  generateMixedTrials alwaysHalf 1 = generateMixedTrials halfThenWild 1.
Proof.
  apply generateMixedTrials_reads_2n_draws.
  intros [| [| k]] Hk; [reflexivity | reflexivity | simpl in Hk; lia].
Defined.

(** X4: generating is restartable: the first [n] trials of a longer run are
    the run for [n] trials on the same source. *)
Theorem generateMixedTrials_prefix (random : nat -> Q) (n m : nat) (l : list Trial)
    (Hgen : generateMixedTrials random (n + m) = Some l) :
  generateMixedTrials random n = Some (firstn n l).
Proof.
  unfold generateMixedTrials in *.
  assert (Hloop : forall todo i k acc,
             generateLoop random (todo + m) i k acc = Some l ->
             generateLoop random todo i k acc = Some (firstn (length acc + todo) l)).
  { induction todo as [| todo IH]; intros i k acc H.
    - destruct (generateLoop_passes random _ _ _ _ _ H) as [l' [-> _]].
      simpl. rewrite Nat.add_0_r, firstn_app, Nat.sub_diag, firstn_all.
      simpl. rewrite app_nil_r. reflexivity.
    - simpl in *. destruct (mixedTrial random i k) as [t |]; [| discriminate H].
      rewrite (IH _ _ _ H). rewrite length_app. simpl.
      do 2 f_equal. lia. }
  apply (Hloop n 0%nat 0%nat [] Hgen).
Qed.

Lemma generateMixedTrials_prefix_witness :
  exists l, generateMixedTrials alwaysHalf 5 = Some l
            /\ generateMixedTrials alwaysHalf 2 = Some (firstn 2 l).
Proof.
  eexists. split; [reflexivity |].
  apply (generateMixedTrials_prefix alwaysHalf 2 3). reflexivity.
Defined.

(** ** The page under clicks and timers *)

Lemma no_click_latch_open (state : GameState) (hasSpeech : bool) (trial : Trial)
    (dimension' : string) (withFeedback : bool) (startTime : Q)
    (document : Dom) (events : list Event) :
  firstClick (length (cards document)) events = None ->
  responded (run state hasSpeech trial dimension' withFeedback startTime document events)
    = false
  /\ finished (run state hasSpeech trial dimension' withFeedback startTime document events)
     = [].
Proof.
  intros Hnone.
  pose proof (run_reaches_latched state hasSpeech trial dimension' withFeedback
                startTime document events) as [_ [_ Hacc]].
  rewrite Hnone in Hacc. destruct Hacc as [Hr [Hf _]]. split; assumption.
Qed.

(** X5: a set-up trial never ends by itself: as long as no click has landed
    on a card, timer runs and clicks elsewhere report nothing and leave the
    latch open. *)
Theorem trial_waits_for_click (state : GameState) (hasSpeech : bool) (trial : Trial)
    (dimension' : string) (withFeedback : bool) (startTime : Q)
    (document : Dom) (events : list Event)
    (Hnone : firstClick (length (cards document)) events = None) :
  let p := run state hasSpeech trial dimension' withFeedback startTime document events in
  responded p = false /\ finished p = [].
Proof.
  intros p. apply no_click_latch_open. exact Hnone.
Qed.

Lemma trial_waits_for_click_witness :
  let p := run resetState false practice0 "color" false 0 (cueOf practice0 "COLOR")
             [Fire 0 5000 true; Click 2 5100; Fire 0 9000 false] in
  responded p = false /\ finished p = [].
Proof.
  apply (trial_waits_for_click resetState false practice0 "color" false 0
           (cueOf practice0 "COLOR")). reflexivity.
Defined.




Section WithoutFeedback.

Variable state : GameState.
Variable hasSpeech : bool.
Variable trial : Trial.
Variable startTime : Q.

Local Abbreviation next0 := (step state hasSpeech trial false startTime).



End WithoutFeedback.

Lemma setupTrial_fresh (state : GameState) (hasSpeech : bool) (dimension' : string)
    (withFeedback : bool) (startTime : Q) (document : Dom) :
  let p := setupTrial state hasSpeech dimension' withFeedback startTime document in
  responded p = false /\ dom p = document /\ finished p = []
  /\ pendingFinish (timers p) = [].
Proof.
  unfold setupTrial.
  destruct (playAudio_frame state hasSpeech (toUpperCase dimension')
              (mkPage false document [] [] [])) as [Hr [Hd [Hf Ht]]].
  destruct withFeedback; simpl; rewrite ?Hr, ?Hd, ?Hf, ?Ht; simpl;
    repeat split; reflexivity.
Qed.



(** ** A correct index that names no card *)

Lemma addClassAt_None (c : string) (cs : list (list string)) :
  forall n, (length cs <= n)%nat -> addClassAt c n cs = None.
Proof.
  induction cs as [| x cs IH]; intros n Hn; [destruct n; reflexivity |].
  destruct n as [| n]; simpl in *; [lia |].
  rewrite IH by lia. reflexivity.
Qed.

Lemma highlight_None (cs : list (list string)) (z : Z) :
  (z < 0 \/ Z.of_nat (length cs) <= z)%Z -> highlight cs z = None.
Proof.
  intros H. unfold highlight. destruct (z <? 0)%Z eqn:Hneg; [reflexivity |].
  apply Z.ltb_ge in Hneg. apply addClassAt_None. lia.
Qed.

Section NoSuchCard.

Variable state : GameState.
Variable hasSpeech : bool.
Variable trial : Trial.
Variable startTime : Q.
Variable ncards : nat.

Hypothesis Hout : (correct trial < 0 \/ Z.of_nat ncards <= correct trial)%Z.

Local Abbreviation next1 := (step state hasSpeech trial true startTime).
Local Abbreviation silent := (silentPage ncards).

Lemma step_silentPage (p : Page) (e : Event) :
  silent p -> silent (next1 p e).
Proof.
  intros [Hn [Hdiv [Hf Hp]]]. destruct e as [i now | k now cur]; simpl.
  - rewrite Hn. destruct (i <? ncards)%nat eqn:Hi; [| repeat split; assumption].
    apply Nat.ltb_lt in Hi.
    unfold onClick. destruct (responded p); [repeat split; assumption |].
    simpl. destruct (feedbackDiv (dom p)) as [fb |]; [| contradiction].
    assert (Hwrong : (Z.of_nat i =? correct trial)%Z = false) by (apply Z.eqb_neq; lia).
    rewrite Hwrong.
    set (q := playAudio _ _ _ _).
    destruct (playAudio_frame state hasSpeech
                "This is the same color, so you should choose this picture."
                (set_feedback "This is the same color." "dccs-feedback incorrect"
                   (set_responded true p))) as [_ [H2 [H3 H4]]].
    fold q in H2, H3, H4.
    rewrite highlight_None by (rewrite H2; simpl; rewrite Hn; exact Hout).
    unfold silentPage. rewrite H2, H3, H4. simpl.
    repeat split; try assumption. discriminate.
  - destruct (takeTimer k (timers p)) as [[tm rest] |] eqn:Htake;
      [| repeat split; assumption].
    destruct (Qle_bool (due tm) now); [| repeat split; assumption].
    pose proof (pendingFinish_take _ _ _ _ Htake) as Hpf.
    unfold isFinish in Hpf. unfold runCallback.
    destruct (callback tm) as [i c |].
    + destruct Hpf as [l1 [l2 [Hall _]]]. rewrite Hp in Hall.
      destruct l1; discriminate Hall.
    + rewrite Hp in Hpf.
      destruct (negb (responded (set_timers rest p)) && cur).
      * destruct (playAudio_frame state hasSpeech "Choose one of the pictures."
                    (set_timers rest p)) as [_ [H2 [H3 H4]]].
        unfold silentPage. rewrite H2, H3, H4. simpl. repeat split; assumption.
      * unfold silentPage. simpl. repeat split; assumption.
Qed.

Lemma fold_silentPage (events : list Event) :
  forall p, silent p -> silent (fold_left next1 events p).
Proof.
  induction events as [| e events IH]; intros p Hp; simpl; [assumption |].
  apply IH, step_silentPage, Hp.
Qed.

End NoSuchCard.

(** X8: a trial set up with feedback whose [correct] names none of the
    cards can never be finished. Every click on a card counts as incorrect,
    the listener stops at [cards[trial.correct].classList] before the
    feedback timer is scheduled, and so nothing is ever reported, while the
    latch, once a click has set it, turns every further click away. *)
Theorem feedback_trial_without_correct_card_hangs (state : GameState)
    (hasSpeech : bool) (trial : Trial) (dimension' : string) (startTime : Q)
    (document : Dom) (events : list Event)
    (Hdiv : feedbackDiv document <> None)
    (Hout : (correct trial < 0 \/ Z.of_nat (length (cards document)) <= correct trial)%Z) :
  let p := run state hasSpeech trial dimension' true startTime document events in
  finished p = []
  /\ pendingFinish (timers p) = []
  /\ (firstClick (length (cards document)) events <> None -> responded p = true).
Proof.
  intros p. split; [| split].
  - apply (fold_silentPage state hasSpeech trial startTime (length (cards document)) Hout).
    destruct (setupTrial_fresh state hasSpeech dimension' true startTime document)
      as [_ [Hd [Hf Hp]]].
    unfold silentPage. rewrite Hd, Hf, Hp. repeat split; assumption.
  - apply (fold_silentPage state hasSpeech trial startTime (length (cards document)) Hout).
    destruct (setupTrial_fresh state hasSpeech dimension' true startTime document)
      as [_ [Hd [Hf Hp]]].
    unfold silentPage. rewrite Hd, Hf, Hp. repeat split; assumption.
  - intros Hclick.
    pose proof (run_reaches_latched state hasSpeech trial dimension' true
                  startTime document events) as [_ [_ Hacc]].
    destruct (firstClick (length (cards document)) events) as [[i t] |];
      [| contradiction].
    destruct Hacc as [Hr _]. exact Hr.
Qed.

Lemma feedback_trial_without_correct_card_hangs_witness :
  let p := run resetState false strayTrial "color" true 0 (cueOf strayTrial "COLOR")
             [Click 0 500; Fire 0 3000 true; Click 1 3500; Fire 0 9000 true] in
  finished p = []
  /\ pendingFinish (timers p) = []
  /\ (firstClick 2 [Click 0 500; Fire 0 3000 true; Click 1 3500; Fire 0 9000 true]
        <> None -> responded p = true).
Proof.
  apply (feedback_trial_without_correct_card_hangs resetState false strayTrial
           "color" 0 (cueOf strayTrial "COLOR")).
  - discriminate.
  - right. simpl. lia.
Defined.

(** ** What a trial says and shows *)

Lemma playAudio_off (state : GameState) (hasSpeech : bool) (text : string) (p : Page) :
  audio_enabled state && hasSpeech = false ->
  playAudio state hasSpeech text p = p.
Proof. intros H. unfold playAudio. rewrite H. reflexivity. Qed.

Lemma playAudio_says (state : GameState) (hasSpeech : bool) (text : string) (p : Page) :
  spoken (playAudio state hasSpeech text p) = spoken p
  \/ spoken (playAudio state hasSpeech text p) = spoken p ++ [text].
Proof.
  unfold playAudio. destruct (audio_enabled state && hasSpeech); [right | left]; reflexivity.
Qed.

Lemma step_audio_off (state : GameState) (hasSpeech : bool) (trial : Trial)
    (withFeedback : bool) (startTime : Q) (p : Page) (e : Event) :
  audio_enabled state && hasSpeech = false ->
  spoken (step state hasSpeech trial withFeedback startTime p e) = spoken p.
Proof.
  intros Hoff. destruct e as [i now | k now cur]; simpl.
  - destruct (i <? length (cards (dom p)))%nat; [| reflexivity].
    unfold onClick. rewrite !(playAudio_off _ _ _ _ Hoff).
    destruct (responded p); [reflexivity |].
    destruct withFeedback; [| reflexivity].
    simpl. destruct (feedbackDiv (dom p)); [| reflexivity].
    destruct (Z.of_nat i =? correct trial)%Z; [reflexivity |].
    simpl. destruct (highlight (cards (dom p)) (correct trial)); reflexivity.
  - destruct (takeTimer k (timers p)) as [[tm rest] |]; [| reflexivity].
    destruct (Qle_bool (due tm) now); [| reflexivity].
    unfold runCallback. rewrite !(playAudio_off _ _ _ _ Hoff).
    destruct (callback tm); [reflexivity |].
    destruct (negb (responded (set_timers rest p)) && cur); reflexivity.
Qed.

Lemma run_audio_off (state : GameState) (hasSpeech : bool) (trial : Trial)
    (dimension' : string) (withFeedback : bool) (startTime : Q)
    (document : Dom) (events : list Event) :
  audio_enabled state && hasSpeech = false ->
  spoken (run state hasSpeech trial dimension' withFeedback startTime document events) = [].
Proof.
  intros Hoff. unfold run.
  assert (Hfold : forall p, spoken (fold_left (step state hasSpeech trial withFeedback
                                                  startTime) events p) = spoken p).
  { induction events as [| e evs IH]; intros p; [reflexivity |].
    simpl. rewrite IH. apply step_audio_off. exact Hoff. }
  rewrite Hfold. unfold setupTrial. rewrite (playAudio_off _ _ _ _ Hoff).
  destruct withFeedback; reflexivity.
Qed.

(** X9: with audio disabled, or in a browser without speech synthesis, a
    trial hands nothing to the synthesiser: not the cue at set-up, not the
    feedback, not the reminder, whatever clicks and timers come. *)
Theorem audio_off_is_silent (state : GameState) (hasSpeech : bool) (trial : Trial)
    (dimension' : string) (withFeedback : bool) (startTime : Q)
    (document : Dom) (events : list Event)
    (Hoff : audio_enabled state && hasSpeech = false) :
  spoken (run state hasSpeech trial dimension' withFeedback startTime document events) = [].
Proof.
  apply run_audio_off. exact Hoff.
Qed.

Lemma audio_off_is_silent_witness :
  spoken (run resetState true practice0 "color" true 0 (cueOf practice0 "COLOR")
            [Click 1 900; Fire 0 3400 true]) = [].
Proof.
  apply (audio_off_is_silent resetState true practice0 "color" true 0). reflexivity.
Defined.

Lemma step_dom_without_feedback (state : GameState) (hasSpeech : bool) (trial : Trial)
    (startTime : Q) (p : Page) (e : Event) :
  dom (step state hasSpeech trial false startTime p e) = dom p.
Proof.
  destruct e as [i now | k now cur]; simpl.
  - destruct (i <? length (cards (dom p)))%nat; [| reflexivity].
    unfold onClick. destruct (responded p); reflexivity.
  - destruct (takeTimer k (timers p)) as [[tm rest] |]; [| reflexivity].
    destruct (Qle_bool (due tm) now); [| reflexivity].
    unfold runCallback. destruct (callback tm); [reflexivity |].
    destruct (negb (responded (set_timers rest p)) && cur); [| reflexivity].
    destruct (playAudio_frame state hasSpeech "Choose one of the pictures."
                (set_timers rest p)) as [_ [H2 _]].
    rewrite H2. reflexivity.
Qed.

(** X10: a trial set up without feedback never writes to the document:
    after any clicks and timer runs the feedback element and the class
    lists of the cards are as they were rendered. *)
Theorem test_trial_leaves_document (state : GameState) (hasSpeech : bool)
    (trial : Trial) (dimension' : string) (startTime : Q)
    (document : Dom) (events : list Event) :
  dom (run state hasSpeech trial dimension' false startTime document events) = document.
Proof.
  unfold run.
  assert (Hfold : forall p, dom (fold_left (step state hasSpeech trial false startTime)
                                   events p) = dom p).
  { induction events as [| e evs IH]; intros p; [reflexivity |].
    simpl. rewrite IH. apply step_dom_without_feedback. }
  rewrite Hfold.
  destruct (setupTrial_fresh state hasSpeech dimension' false startTime document)
    as [_ [Hd _]].
  exact Hd.
Qed.

Lemma takeTimer_filter (f : Timer -> bool) (k : nat) (l : list Timer)
    (tm : Timer) (rest : list Timer) :
  takeTimer k l = Some (tm, rest) ->
  if f tm
  then exists l1 l2, filter f l = l1 ++ tm :: l2 /\ filter f rest = l1 ++ l2
  else filter f rest = filter f l.
Proof.
  intros H. destruct (takeTimer_split k l tm rest H) as [l1 [l2 [-> ->]]].
  rewrite !filter_app. simpl.
  destruct (f tm); [| reflexivity].
  exists (filter f l1), (filter f l2). split; reflexivity.
Qed.

Lemma saidAfterCue_ext (w : bool) (p q : Page) (said : list string) :
  pendingPrompt (timers q) = pendingPrompt (timers p) ->
  responded q = responded p ->
  saidAfterCue w p said -> saidAfterCue w q said.
Proof.
  intros Ht Hr. unfold saidAfterCue. rewrite Ht, Hr. trivial.
Qed.

Section Utterances.

Variable state : GameState.
Variable hasSpeech : bool.
Variable trial : Trial.
Variable withFeedback : bool.
Variable startTime : Q.
Variable cue : list string.

Local Abbreviation next2 := (step state hasSpeech trial withFeedback startTime).

Lemma step_saidAfterCue (p : Page) (e : Event) :
  (exists said, spoken p = cue ++ said /\ saidAfterCue withFeedback p said) ->
  exists said, spoken (next2 p e) = cue ++ said
               /\ saidAfterCue withFeedback (next2 p e) said.
Proof.
  intros [said [Hsp Hsaid]]. destruct e as [i now | k now cur]; simpl.
  - (* a click *)
    destruct (i <? length (cards (dom p)))%nat; [| exists said; split; assumption].
    unfold onClick. destruct (responded p) eqn:Hr; [exists said; split; assumption |].
    unfold saidAfterCue in *. destruct withFeedback.
    + destruct Hsaid as [Hpp [Hnil _]]. rewrite (Hnil Hr) in Hsp.
      rewrite app_nil_r in Hsp.
      assert (Hdone : forall (q : Page) (said' : list string) (cb : Callback) (at_ : Q),
                 spoken q = cue ++ said' -> timers q = timers p ->
                 isPrompt (mkTimer at_ cb) = false ->
                 (said' = [] \/ said' = ["That's right!"]
                  \/ said' = ["This is the same color, so you should choose this picture."]) ->
                 responded q = true ->
                 exists s, spoken (setTimeout cb at_ q) = cue ++ s
                           /\ pendingPrompt (timers (setTimeout cb at_ q)) = []
                           /\ (responded (setTimeout cb at_ q) = false -> s = [])
                           /\ (s = [] \/ s = ["That's right!"]
                               \/ s = ["This is the same color, so you should choose this picture."])).
      { intros q said' cb at_ H1 H2 H3 H4 H5. exists said'. simpl.
        unfold pendingPrompt in *. rewrite H2, filter_app, Hpp. simpl. rewrite H3.
        repeat split; try assumption. rewrite H5. discriminate. }
      simpl. destruct (feedbackDiv (dom p)) as [fb |].
      * destruct (Z.of_nat i =? correct trial)%Z.
        -- set (q0 := set_feedback _ _ _).
           destruct (playAudio_frame state hasSpeech "That's right!" q0) as [H1 [_ [_ H4]]].
           destruct (playAudio_says state hasSpeech "That's right!" q0) as [Hs | Hs].
           ++ apply (Hdone _ []); rewrite ?Hs, ?H1, ?H4, ?app_nil_r; auto.
           ++ apply (Hdone _ ["That's right!"]); rewrite ?Hs, ?H1, ?H4; simpl; auto.
              rewrite Hsp. reflexivity.
        -- set (q0 := set_feedback _ _ _).
           set (txt := "This is the same color, so you should choose this picture.").
           destruct (playAudio_frame state hasSpeech txt q0) as [H1 [_ [_ H4]]].
           destruct (highlight (cards (dom (playAudio state hasSpeech txt q0)))
                       (correct trial)) as [cs |].
           ++ destruct (playAudio_says state hasSpeech txt q0) as [Hs | Hs].
              ** apply (Hdone _ []); simpl; rewrite ?Hs, ?H1, ?H4, ?app_nil_r; auto.
              ** apply (Hdone _ [txt]); simpl; rewrite ?Hs, ?H1, ?H4; simpl; auto.
                 rewrite Hsp. reflexivity.
           ++ destruct (playAudio_says state hasSpeech txt q0) as [Hs | Hs].
              ** exists []. rewrite Hs, H1, H4, app_nil_r. simpl.
                 repeat split; auto; try discriminate.
              ** exists [txt]. rewrite Hs, H1, H4. simpl. rewrite Hsp.
                 repeat split; auto; try discriminate.
      * apply (Hdone _ []); simpl; rewrite ?app_nil_r; auto.
    + exists said. simpl. split; assumption.
  - (* a timer *)
    destruct (takeTimer k (timers p)) as [[tm rest] |] eqn:Htake;
      [| exists said; split; assumption].
    destruct (Qle_bool (due tm) now); [| exists said; split; assumption].
    pose proof (takeTimer_filter isPrompt _ _ _ _ Htake) as Hpf.
    unfold runCallback. unfold isPrompt at 1, isFinish in Hpf.
    destruct (callback tm) as [i c |]; simpl in Hpf.
    + (* the feedback timer says nothing *)
      exists said. split; [assumption |].
      apply (saidAfterCue_ext _ p); [exact Hpf | reflexivity | exact Hsaid].
    + (* the reminder *)
      destruct Hpf as [l1 [l2 [Hall Hrest]]].
      fold (pendingPrompt (timers p)) in Hall. fold (pendingPrompt rest) in Hrest.
      unfold saidAfterCue in Hsaid. destruct withFeedback.
      * destruct Hsaid as [Hpp _]. rewrite Hpp in Hall. destruct l1; discriminate Hall.
      * destruct Hsaid as [[Hnil Hlen] | [_ Hpp]];
          [| rewrite Hpp in Hall; destruct l1; discriminate Hall].
        rewrite Hall, length_app in Hlen. simpl in Hlen.
        assert (l1 = []) by (destruct l1; [reflexivity | simpl in Hlen; lia]).
        assert (l2 = []) by (destruct l2; [reflexivity | simpl in Hlen; lia]).
        subst l1 l2 said. simpl in Hrest. rewrite app_nil_r in Hsp.
        assert (Hquiet : exists s, spoken (set_timers rest p) = cue ++ s
                                   /\ saidAfterCue false (set_timers rest p) s).
        { exists []. simpl. rewrite app_nil_r. split; [assumption |].
          left. split; [reflexivity |]. rewrite Hrest. simpl. lia. }
        destruct (negb (responded (set_timers rest p)) && cur); [| exact Hquiet].
        destruct (playAudio_frame state hasSpeech "Choose one of the pictures."
                    (set_timers rest p)) as [_ [_ [_ H4]]].
        destruct (playAudio_says state hasSpeech "Choose one of the pictures."
                    (set_timers rest p)) as [Hs | Hs].
        -- exists []. rewrite Hs, app_nil_r. simpl. split; [assumption |].
           left. split; [reflexivity |]. rewrite H4. simpl. rewrite Hrest. simpl. lia.
        -- exists ["Choose one of the pictures."]. rewrite Hs. simpl. rewrite Hsp.
           split; [reflexivity |]. right. split; [reflexivity |].
           rewrite H4. simpl. exact Hrest.
Qed.

Lemma fold_saidAfterCue (events : list Event) :
  forall p,
  (exists said, spoken p = cue ++ said /\ saidAfterCue withFeedback p said) ->
  exists said, spoken (fold_left next2 events p) = cue ++ said
               /\ saidAfterCue withFeedback (fold_left next2 events p) said.
Proof.
  induction events as [| e events IH]; intros p Hp; simpl; [assumption |].
  apply IH, step_saidAfterCue, Hp.
Qed.

End Utterances.

(** X11: after its cue (the dimension in capitals, when audio is on) a
    trial hands at most one more text to the synthesiser. With feedback it
    is one of the two feedback sentences and never comes before a click
    has been accepted; without feedback it is the reminder, so the reminder
    is never repeated. *)
Theorem trial_says_one_thing_after_cue (state : GameState) (hasSpeech : bool)
    (trial : Trial) (dimension' : string) (withFeedback : bool) (startTime : Q)
    (document : Dom) (events : list Event) :
  let p0 := setupTrial state hasSpeech dimension' withFeedback startTime document in
  let p := run state hasSpeech trial dimension' withFeedback startTime document events in
  (spoken p0 = [] \/ spoken p0 = [toUpperCase dimension'])
  /\ exists said,
       spoken p = spoken p0 ++ said
       /\ (length said <= 1)%nat
       /\ (forall u, In u said ->
             if withFeedback
             then u = "That's right!"
                  \/ u = "This is the same color, so you should choose this picture."
             else u = "Choose one of the pictures.")
       /\ (withFeedback = true ->
           firstClick (length (cards document)) events = None -> said = []).
Proof.
  intros p0 p. split.
  - subst p0. unfold setupTrial.
    destruct (playAudio_says state hasSpeech (toUpperCase dimension')
                (mkPage false document [] [] [])) as [Hs | Hs];
      destruct withFeedback; simpl; rewrite Hs; simpl; auto.
  - assert (Hinit : exists said, spoken p0 = spoken p0 ++ said
                                 /\ saidAfterCue withFeedback p0 said).
    { exists []. rewrite app_nil_r. split; [reflexivity |].
      subst p0. unfold setupTrial, saidAfterCue.
      destruct (playAudio_frame state hasSpeech (toUpperCase dimension')
                  (mkPage false document [] [] [])) as [_ [_ [_ Ht]]].
      destruct withFeedback; simpl.
      - rewrite Ht. simpl. auto.
      - left. split; [reflexivity |]. unfold pendingPrompt.
        rewrite Ht. simpl. lia. }
    destruct (fold_saidAfterCue state hasSpeech trial withFeedback startTime
                (spoken p0) events p0 Hinit) as [said [Hsp Hsaid]].
    exists said. split; [exact Hsp |].
    pose proof (no_click_latch_open state hasSpeech trial dimension' withFeedback
                  startTime document events) as Hwait.
    unfold saidAfterCue in Hsaid. destruct withFeedback.
    + destruct Hsaid as [_ [Hnil [-> | [-> | ->]]]]; (split; [simpl; lia | split]).
      * intros u [].
      * reflexivity.
      * intros u [<- | []]. left. reflexivity.
      * intros _ Hnone. destruct (Hwait Hnone) as [Hr _]. apply Hnil. exact Hr.
      * intros u [<- | []]. right. reflexivity.
      * intros _ Hnone. destruct (Hwait Hnone) as [Hr _]. apply Hnil. exact Hr.
    + destruct Hsaid as [[-> _] | [-> _]]; (split; [simpl; lia | split]).
      * intros u [].
      * discriminate.
      * intros u [<- | []]. reflexivity.
      * discriminate.
Qed.

(** ** The highlighted card *)

Lemma classList_add_In (c : string) (classes : list string) :
  In c (classList_add c classes).
Proof.
  unfold classList_add. destruct (existsb (String.eqb c) classes) eqn:Hex.
  - apply existsb_exists in Hex. destruct Hex as [x [Hin Heq]].
    apply String.eqb_eq in Heq. subst x. exact Hin.
  - apply in_or_app. right. left. reflexivity.
Qed.

Lemma addClassAt_nth (c : string) (cs : list (list string)) :
  forall n cs', addClassAt c n cs = Some cs' ->
  forall j, nth_error cs' j
            = if (j =? n)%nat
              then option_map (classList_add c) (nth_error cs j)
              else nth_error cs j.
Proof.
  induction cs as [| x cs IH]; intros n cs' H j.
  - destruct n; discriminate H.
  - destruct n as [| n]; simpl in H.
    + injection H as <-. destruct j; reflexivity.
    + destruct (addClassAt c n cs) as [r |] eqn:Hr; [| discriminate H].
      injection H as <-. destruct j as [| j]; [reflexivity |].
      simpl. apply (IH n r Hr j).
Qed.

Lemma addClassAt_Some (c : string) (cs : list (list string)) :
  forall n, (n < length cs)%nat -> exists cs', addClassAt c n cs = Some cs'.
Proof.
  induction cs as [| x cs IH]; intros n Hn; simpl in Hn; [lia |].
  destruct n as [| n]; simpl.
  - eexists. reflexivity.
  - destruct (IH n ltac:(lia)) as [r Hr]. rewrite Hr. eexists. reflexivity.
Qed.

(** X12: on a trial with feedback, an accepted click on a wrong card adds
    the class [highlight] to the card [trial.correct] and to no other, the
    clicked card included; an accepted click on the right card changes no
    class list. *)
Theorem wrong_click_highlights_correct_card (state : GameState) (hasSpeech : bool)
    (trial : Trial) (startTime : Q) (p : Page) (i c : nat) (now : Q)
    (Hfresh : responded p = false)
    (Hdiv : feedbackDiv (dom p) <> None)
    (Hcard : (i < length (cards (dom p)))%nat)
    (Hc : correct trial = Z.of_nat c)
    (Hcin : (c < length (cards (dom p)))%nat) :
  let p' := step state hasSpeech trial true startTime p (Click i now) in
  (i <> c ->
     (forall j, j <> c -> nth_error (cards (dom p')) j = nth_error (cards (dom p)) j)
     /\ exists old, nth_error (cards (dom p)) c = Some old
                    /\ nth_error (cards (dom p')) c = Some (classList_add "highlight" old)
                    /\ In "highlight" (classList_add "highlight" old))
  /\ (i = c -> cards (dom p') = cards (dom p)).
Proof.
  intros p'. subst p'. simpl.
  apply Nat.ltb_lt in Hcard. rewrite Hcard.
  unfold onClick. rewrite Hfresh. simpl.
  destruct (feedbackDiv (dom p)) as [fb |]; [clear Hdiv | contradiction].
  rewrite Hc. split; intros Hi.
  - assert (Hne : (Z.of_nat i =? Z.of_nat c)%Z = false) by (apply Z.eqb_neq; lia).
    rewrite Hne.
    set (q := playAudio _ _ _ _).
    assert (Hq : cards (dom q) = cards (dom p)).
    { subst q. destruct (playAudio_frame state hasSpeech
                  "This is the same color, so you should choose this picture."
                  (set_feedback "This is the same color." "dccs-feedback incorrect"
                     (set_responded true p))) as [_ [H2 _]].
      rewrite H2. reflexivity. }
    rewrite Hq. unfold highlight.
    destruct (Z.of_nat c <? 0)%Z eqn:Hneg; [apply Z.ltb_lt in Hneg; lia |].
    rewrite Nat2Z.id.
    destruct (addClassAt_Some "highlight" (cards (dom p)) c Hcin) as [cs Hcs].
    rewrite Hcs. simpl.
    pose proof (addClassAt_nth _ _ _ _ Hcs) as Hnth.
    split.
    + intros j Hj. rewrite Hnth. apply Nat.eqb_neq in Hj. rewrite Hj. reflexivity.
    + destruct (nth_error (cards (dom p)) c) as [old |] eqn:Hold.
      * exists old. split; [reflexivity |]. rewrite Hnth, Nat.eqb_refl, Hold.
        split; [reflexivity | apply classList_add_In].
      * apply nth_error_None in Hold. lia.
  - subst i. rewrite Z.eqb_refl.
    destruct (playAudio_frame state hasSpeech "That's right!"
                (set_feedback "That's right!" "dccs-feedback correct"
                   (set_responded true p))) as [_ [H2 _]].
    simpl. rewrite H2. reflexivity.
Qed.

Lemma wrong_click_highlights_correct_card_witness :
  let p := createPracticeTrial resetState false practice0 0 0 in
  let p' := step resetState false practice0 true 0 p (Click 1 800) in
  (forall j, j <> 0%nat -> nth_error (cards (dom p')) j = nth_error (cards (dom p)) j)
  /\ exists old, nth_error (cards (dom p)) 0 = Some old
                 /\ nth_error (cards (dom p')) 0 = Some (classList_add "highlight" old)
                 /\ In "highlight" (classList_add "highlight" old).
Proof.
  intros p p'.
  refine (proj1 (wrong_click_highlights_correct_card resetState false practice0 0 p 1 0 800
                   eq_refl _ _ eq_refl _) _).
  - discriminate.
  - simpl. lia.
  - simpl. lia.
  - discriminate.
Defined.

(** ** The summary and the recorded rows *)

(** The table, read through the rows of each phase. *)
Lemma createResults_by_phase (jsPsychData : list DataRow.t) :
  createResults jsPsychData
  = {| colorCell := (toFixed0 (accuracy ColorTest jsPsychData) ++ "%")%string;
       shapeCell := (toFixed0 (accuracy ShapeTest jsPsychData) ++ "%")%string;
       mixedCell := (toFixed0 (accuracy Mixed jsPsychData) ++ "%")%string |}.
Proof.
  rewrite <- !cellOf_createResults. reflexivity.
Qed.

Lemma Permutation_filter_length {A : Type} (f : A -> bool) (l l' : list A) :
  Permutation l l' -> length (filter f l) = length (filter f l').
Proof.
  intros H. induction H as [| x l l' _ IH | x y l | l l' l'' _ IH1 _ IH2]; simpl.
  - reflexivity.
  - destruct (f x); simpl; congruence.
  - destruct (f x), (f y); reflexivity.
  - congruence.
Qed.

Lemma accuracy_by_counts (ph : Phase) (d d' : list DataRow.t) :
  length (recorded ph d) = length (recorded ph d') ->
  length (recordedCorrect ph d) = length (recordedCorrect ph d') ->
  accuracy ph d = accuracy ph d'.
Proof.
  intros Hall Hok. unfold accuracy, count. rewrite Hall, Hok. reflexivity.
Qed.

Lemma recordedCorrect_as_filter (ph : Phase) (d : list DataRow.t) :
  recordedCorrect ph d
  = filter (fun r =>
              match DataRow.task r, DataRow.phase r with
              | Some t, Some p => (t =? "dccs") && (p =? phaseLabel ph)
              | _, _ => false
              end
              && match DataRow.correct r with Some true => true | _ => false end) d.
Proof. unfold recordedCorrect, recorded. apply filter_filter. Qed.

(** X13: the summary does not depend on the order in which the results
    were recorded: any rearrangement of the rows gives the same table. *)
Theorem createResults_order_free (d d' : list DataRow.t) (Hperm : Permutation d d') :
  createResults d = createResults d'.
Proof.
  rewrite !createResults_by_phase.
  assert (Hacc : forall ph, accuracy ph d = accuracy ph d').
  { intros ph. apply accuracy_by_counts.
    - unfold recorded. apply Permutation_filter_length, Hperm.
    - rewrite !recordedCorrect_as_filter. apply Permutation_filter_length, Hperm. }
  rewrite !Hacc. reflexivity.
Qed.

Lemma createResults_order_free_witness :
  createResults sampleData = createResults (rev sampleData).
Proof. apply createResults_order_free, Permutation_rev. Defined.

Lemma recorded_summarised (ph : Phase) (d : list DataRow.t) :
  recorded ph (filter summarised d) = recorded ph d.
Proof.
  unfold recorded. rewrite filter_filter. apply filter_ext. intros r.
  unfold summarised.
  destruct (DataRow.task r) as [t |], (DataRow.phase r) as [q |]; try reflexivity.
  destruct (t =? "dccs"); [| reflexivity]. simpl.
  destruct ph; simpl; destruct (q =? "color_test"), (q =? "shape_test"), (q =? "mixed");
    reflexivity.
Qed.

(** X14: the summary reads nothing but the results of the three test
    phases: dropping every other row (the practice results, the welcome,
    instruction and summary screens, rows of other tasks) changes no
    cell. *)
Theorem createResults_reads_test_rows (jsPsychData : list DataRow.t) :
  createResults (filter summarised jsPsychData) = createResults jsPsychData.
Proof.
  rewrite !createResults_by_phase.
  assert (Hacc : forall ph,
             accuracy ph (filter summarised jsPsychData) = accuracy ph jsPsychData).
  { intros ph. unfold accuracy, recordedCorrect. rewrite recorded_summarised. reflexivity. }
  rewrite !Hacc. reflexivity.
Qed.

(** X15: for a phase with at least one result the accuracy cell shows a
    whole number from 0 to 100; it shows 100% when every result of the
    phase is correct and 0% when none is. *)
Theorem summary_accuracy_range (ph : Phase) (jsPsychData : list DataRow.t)
    (Hsome : recorded ph jsPsychData <> []) :
  (exists d : Z, cellOf ph (createResults jsPsychData) = (decimal d ++ "%")%string
                 /\ (0 <= d <= 100)%Z)
  /\ (recordedCorrect ph jsPsychData = recorded ph jsPsychData ->
      cellOf ph (createResults jsPsychData) = "100%")
  /\ (recordedCorrect ph jsPsychData = [] ->
      cellOf ph (createResults jsPsychData) = "0%").
Proof.
  rewrite cellOf_createResults, accuracy_nonempty by assumption.
  destruct (recorded_counts ph jsPsychData Hsome) as [Hc Ht].
  set (hits := Z.of_nat (length (recordedCorrect ph jsPsychData))) in *.
  set (total := Z.of_nat (length (recorded ph jsPsychData))) in *.
  assert (HT : 0 < inject_Z total) by (change 0 with (inject_Z 0); rewrite <- Zlt_Qlt; lia).
  split; [| split].
  - destruct (percent_near _ _ Hc Ht) as [y [z [Hy [Hz [Hz0 [Hlo Hhi]]]]]].
    rewrite Hy. change (mul (Num y) (Num 100)) with (double (y * 100)). rewrite Hz.
    exists (Qfloor (z + (1 # 2))). unfold toFixed0.
    pose proof Hz0 as Hz0'. apply Qle_bool_iff in Hz0'. rewrite Hz0'.
    split; [reflexivity |].
    assert (E44 : pow2 (-44) == 1 # 17592186044416) by reflexivity.
    rewrite E44 in Hhi.
    assert (Hx1 : inject_Z hits / inject_Z total <= 1).
    { apply Qle_shift_div_r; [exact HT |]. rewrite Qmult_1_l, <- Zle_Qle. lia. }
    split.
    + change 0%Z with (Qfloor (0 + (1 # 2))). apply Qfloor_resp_le. lra.
    + assert (Hlt : (Qfloor (z + (1 # 2)) < 101)%Z).
      { rewrite Zlt_Qlt. eapply Qle_lt_trans; [apply Qfloor_le |].
        change (inject_Z 101) with 101. lra. }
      lia.
  - intros Hall. subst hits. rewrite Hall. fold total.
    rewrite (double_proper (inject_Z total / inject_Z total) 1) by (field; lra).
    vm_compute. reflexivity.
  - intros Hnil. subst hits. rewrite Hnil. simpl length.
    rewrite (double_proper (inject_Z (Z.of_nat 0) / inject_Z total) 0)
      by (change (inject_Z (Z.of_nat 0)) with 0; field; lra).
    vm_compute. reflexivity.
Qed.

Lemma summary_accuracy_range_witness :
  exists d : Z, cellOf Mixed (createResults sampleData) = (decimal d ++ "%")%string
                /\ (0 <= d <= 100)%Z.
Proof.
  refine (proj1 (summary_accuracy_range Mixed sampleData _)). discriminate.
Defined.

(** ** The timeline *)

Lemma forEachFrom_length {A : Type} (f : A -> nat -> Screen) (arr : list A) :
  forall index, length (forEachFrom f index arr) = length arr.
Proof. induction arr as [| x arr IH]; intros index; simpl; [| rewrite IH]; reflexivity. Qed.

Lemma forEachFrom_Forall {A : Type} (f : A -> nat -> Screen) (P : Screen -> Prop)
    (Q : A -> Prop) (arr : list A) :
  (forall x index, Q x -> P (f x index)) -> Forall Q arr ->
  forall index, Forall P (forEachFrom f index arr).
Proof.
  intros Hf Hq. induction Hq as [| x arr Hx _ IH]; intros index; simpl; constructor; auto.
Qed.

Lemma forEachMixedFrom_length (arr : list Trial) :
  forall index screens,
  forEachMixedFrom index arr = Some screens -> length screens = length arr.
Proof.
  induction arr as [| t arr IH]; intros index screens H; simpl in H.
  - injection H as <-. reflexivity.
  - destruct (dimension t); [| discriminate H].
    destruct (forEachMixedFrom (S index) arr) as [r |] eqn:Hr; [| discriminate H].
    injection H as <-. simpl. f_equal. apply (IH _ _ Hr).
Qed.

Lemma forEachMixedFrom_Forall (P : Screen -> Prop) (Q : Trial -> Prop) (arr : list Trial) :
  (forall t d index, Q t -> dimension t = Some d -> P (testScreen t "mixed" d index)) ->
  Forall Q arr ->
  forall index screens,
  forEachMixedFrom index arr = Some screens -> Forall P screens.
Proof.
  intros Hf Hq. induction Hq as [| t arr Ht _ IH]; intros index screens H; simpl in H.
  - injection H as <-. constructor.
  - destruct (dimension t) as [d |] eqn:Hd; [| discriminate H].
    destruct (forEachMixedFrom (S index) arr) as [r |] eqn:Hr; [| discriminate H].
    injection H as <-. constructor; [apply Hf; assumption | apply (IH _ _ Hr)].
Qed.

Lemma forEachMixedFrom_Some (arr : list Trial) :
  Forall (fun t => dimension t <> None) arr ->
  forall index, exists screens, forEachMixedFrom index arr = Some screens.
Proof.
  intros H. induction H as [| t arr Ht _ IH]; intros index; simpl.
  - eexists. reflexivity.
  - destruct (dimension t); [| contradiction].
    destruct (IH (S index)) as [r ->]. eexists. reflexivity.
Qed.

(** A pass that finds its target yields a well-posed trial of its
    dimension, whatever the swap draw. *)
Lemma mixedTrial_Some_good (random : nat -> Q) (i k : nat) (t : Trial) :
  mixedTrial random i k = Some t -> goodTrial i t.
Proof.
  unfold mixedTrial, goodTrial.
  destruct (lookup testStimuli _) as [tg |] eqn:Htg; [| discriminate].
  intros H. injection H as <-. simpl.
  split; [reflexivity |].
  assert (Hin : In tg testStimuli).
  { unfold lookup in Htg. destruct (_ <? 0)%Z; [discriminate Htg |].
    apply nth_error_In in Htg. exact Htg. }
  unfold choicesFor. destruct (Qlt_le_dec (1 # 2) (random (S k)));
    unfold dimensionOf; destruct (Nat.eqb (i mod 2) 0);
    destruct Hin as [<- | [<- | [<- | [<- | []]]]]; settle_posed.
Qed.

Lemma generated_trials_good (random : nat -> Q) (n : nat) (l : list Trial) :
  generateMixedTrials random n = Some l ->
  Forall (fun t => exists d, dimension t = Some d /\ wellPosed d t) l.
Proof.
  intros H. destruct (generateLoop_passes random n 0 0 [] l H) as [l' [-> [Hlen Hall]]].
  simpl. apply Forall_forall. intros t Hin.
  apply In_nth_error in Hin. destruct Hin as [j Hj].
  assert (Hlt : (j < n)%nat) by (rewrite <- Hlen; apply nth_error_Some; congruence).
  rewrite (Hall j Hlt) in Hj.
  destruct (mixedTrial_Some_good random _ _ t Hj) as [Hd Hw].
  eexists. split; eassumption.
Qed.

(** The timeline as the source assembles it. *)
Lemma createTimeline_Some (random : nat -> Q) (o : Options) (tl : list Screen) :
  snd (createTimeline random o) = Some tl ->
  exists mixedTrialsList screens,
    generateMixedTrials random (mixedTrials o) = Some mixedTrialsList
    /\ forEachMixedFrom 0 mixedTrialsList = Some screens
    /\ tl = createWelcome
            :: (if showInstructions o then createColorInstructions else [])
            ++ forEachFrom practiceScreen 0 (firstn (practiceTrials o) COLOR_PRACTICE_TRIALS)
            ++ (if showInstructions o then createColorTestInstructions else [])
            ++ forEachFrom (fun trial index => testScreen trial "color_test" "color" index) 0
                 (firstn (testTrials o) COLOR_TEST_TRIALS)
            ++ (if showInstructions o then [createShapeInstructions] else [])
            ++ forEachFrom (fun trial index => testScreen trial "shape_test" "shape" index) 0
                 (firstn (testTrials o) SHAPE_TEST_TRIALS)
            ++ (if showInstructions o then [createMixedInstructions] else [])
            ++ screens
            ++ (if showResults o then [resultsScreen] else []).
Proof.
  unfold createTimeline. simpl snd.
  destruct (generateMixedTrials random (mixedTrials o)) as [l |]; [| discriminate].
  destruct (forEachMixedFrom 0 l) as [screens |] eqn:Hs; [| discriminate].
  intros H. injection H as <-. exists l, screens.
  split; [reflexivity | split; [exact Hs |]].
  rewrite <- !app_assoc. reflexivity.
Qed.

(** X16: building the timeline fails exactly when generating the mixed
    trials fails, that is when a draw that picks a target is outside
    [0, 1); otherwise a timeline comes back. In both cases the module state
    has been reset, with audio off. *)
Theorem createTimeline_fails_iff (random : nat -> Q) (o : Options) :
  (snd (createTimeline random o) = None <->
   exists i, (i < mixedTrials o)%nat
             /\ (random (2 * i)%nat < 0 \/ 1 <= random (2 * i)%nat))
  /\ audio_enabled (fst (createTimeline random o)) = false.
Proof.
  split; [| reflexivity].
  rewrite <- generateMixedTrials_fails_iff_helper.
  unfold createTimeline. simpl snd.
  destruct (generateMixedTrials random (mixedTrials o)) as [l |] eqn:Hgen;
    [| split; reflexivity].
  destruct (forEachMixedFrom_Some l) with (index := 0%nat) as [screens ->].
  - eapply Forall_impl; [| apply (generated_trials_good random _ _ Hgen)].
    intros t [d [Hd _]]. congruence.
  - split; discriminate.
Qed.

Lemma generated_length (random : nat -> Q) (n : nat) (l : list Trial) :
  generateMixedTrials random n = Some l -> length l = n.
Proof.
  intros H. destruct (generateLoop_passes random n 0 0 [] l H) as [l' [-> [Hlen _]]].
  exact Hlen.
Qed.

(** X17: a timeline has the welcome screen, seven instruction screens when
    instructions are shown, the requested practice trials and, twice, the
    requested test trials, each capped at the five that are defined, all
    the requested mixed trials, and the summary when it is shown. *)
Theorem createTimeline_length (random : nat -> Q) (o : Options) (tl : list Screen)
    (Hsome : snd (createTimeline random o) = Some tl) :
  length tl
  = (1 + (if showInstructions o then 7 else 0)
     + Nat.min (practiceTrials o) 5 + 2 * Nat.min (testTrials o) 5
     + mixedTrials o + (if showResults o then 1 else 0))%nat.
Proof.
  destruct (createTimeline_Some random o tl Hsome) as [l [screens [Hgen [Hscr ->]]]].
  simpl length. rewrite !length_app, !forEachFrom_length, !length_firstn.
  rewrite (forEachMixedFrom_length _ _ _ Hscr), (generated_length _ _ _ Hgen).
  simpl (length COLOR_PRACTICE_TRIALS). simpl (length COLOR_TEST_TRIALS).
  simpl (length SHAPE_TEST_TRIALS).
  destruct (showInstructions o), (showResults o); simpl length; lia.
Qed.

Lemma createTimeline_length_witness :
  exists tl, snd (createTimeline alwaysHalf defaultOptions) = Some tl
             /\ length tl = 54%nat.
Proof.
  eexists. split; [reflexivity |].
  apply (createTimeline_length alwaysHalf defaultOptions). reflexivity.
Defined.

Lemma filter_none {A : Type} (f : A -> bool) (l : list A) :
  Forall (fun x => f x = false) l -> filter f l = [].
Proof.
  intros H. induction H as [| x l Hx _ IH]; simpl; [| rewrite Hx]; auto.
Qed.

Lemma filter_all {A : Type} (f : A -> bool) (l : list A) :
  Forall (fun x => f x = true) l -> filter f l = l.
Proof.
  intros H. induction H as [| x l Hx _ IH]; simpl; [| rewrite Hx, IH]; auto.
Qed.

Lemma Forall_trivial {A : Type} (l : list A) : Forall (fun _ => True) l.
Proof. induction l; constructor; auto. Qed.

(** Trial screens are trial screens and nothing else. *)
Lemma trial_screens_kind (f : Screen -> bool) (b : bool) :
  (forall t i, f (practiceScreen t i) = b) ->
  (forall t ph d i, f (testScreen t ph d i) = b) ->
  forall (o : Options) (screens : list Screen) (l : list Trial),
  forEachMixedFrom 0 l = Some screens ->
  Forall (fun s => f s = b)
    (forEachFrom practiceScreen 0 (firstn (practiceTrials o) COLOR_PRACTICE_TRIALS))
  /\ Forall (fun s => f s = b)
       (forEachFrom (fun trial index => testScreen trial "color_test" "color" index) 0
          (firstn (testTrials o) COLOR_TEST_TRIALS))
  /\ Forall (fun s => f s = b)
       (forEachFrom (fun trial index => testScreen trial "shape_test" "shape" index) 0
          (firstn (testTrials o) SHAPE_TEST_TRIALS))
  /\ Forall (fun s => f s = b) screens.
Proof.
  intros Hp Ht o screens l Hscr. repeat split.
  - apply forEachFrom_Forall with (Q := fun _ => True);
      [intros; apply Hp | apply Forall_trivial].
  - apply forEachFrom_Forall with (Q := fun _ => True);
      [intros; apply Ht | apply Forall_trivial].
  - apply forEachFrom_Forall with (Q := fun _ => True);
      [intros; apply Ht | apply Forall_trivial].
  - eapply forEachMixedFrom_Forall with (Q := fun _ => True);
      [intros; apply Ht | apply Forall_trivial | exact Hscr].
Qed.

(** X18: every timeline starts with the welcome screen, which is the only
    screen with an [on_finish] hook; the summary appears exactly when
    [showResults] is set, once, and then as the last screen. *)
Theorem createTimeline_ends (random : nat -> Q) (o : Options) (tl : list Screen)
    (Hsome : snd (createTimeline random o) = Some tl) :
  hd_error tl = Some createWelcome
  /\ filter has_on_finish tl = [createWelcome]
  /\ filter isSummary tl = (if showResults o then [resultsScreen] else [])
  /\ (showResults o = true -> last tl createWelcome = resultsScreen).
Proof.
  destruct (createTimeline_Some random o tl Hsome) as [l [screens [Hgen [Hscr ->]]]].
  split; [reflexivity |].
  destruct (trial_screens_kind has_on_finish false (fun _ _ => eq_refl)
              (fun _ _ _ _ => eq_refl) o screens l Hscr) as [F1 [F2 [F3 F4]]].
  destruct (trial_screens_kind isSummary false (fun _ _ => eq_refl)
              (fun _ _ _ _ => eq_refl) o screens l Hscr) as [S1 [S2 [S3 S4]]].
  split; [| split].
  - simpl filter. rewrite !filter_app.
    rewrite (filter_none _ _ F1), (filter_none _ _ F2), (filter_none _ _ F3),
      (filter_none _ _ F4).
    destruct (showInstructions o), (showResults o); reflexivity.
  - simpl filter. rewrite !filter_app.
    rewrite (filter_none _ _ S1), (filter_none _ _ S2), (filter_none _ _ S3),
      (filter_none _ _ S4).
    destruct (showInstructions o), (showResults o); reflexivity.
  - intros Hres. rewrite Hres.
    rewrite app_comm_cons, !app_assoc. apply last_last.
Qed.

Lemma createTimeline_ends_witness :
  exists tl, snd (createTimeline alwaysHalf (mkOptions 2 1 3 false true)) = Some tl
             /\ hd_error tl = Some createWelcome
             /\ last tl createWelcome = resultsScreen.
Proof.
  eexists. split; [reflexivity |].
  pose proof (createTimeline_ends alwaysHalf (mkOptions 2 1 3 false true) _ eq_refl)
    as [H1 [_ [_ H4]]].
  split; [exact H1 | exact (H4 eq_refl)].
Defined.

(** X19: the instruction screens of a timeline are, in order, the three
    colour instructions, the two colour-test instructions, the shape and
    the mixed instruction when [showInstructions] is set, and none at all
    when it is not: no screen then speaks on load. *)
Theorem createTimeline_instructions (random : nat -> Q) (o : Options) (tl : list Screen)
    (Hsome : snd (createTimeline random o) = Some tl) :
  filter isInstruction tl
  = if showInstructions o
    then createColorInstructions ++ createColorTestInstructions
         ++ [createShapeInstructions; createMixedInstructions]
    else [].
Proof.
  destruct (createTimeline_Some random o tl Hsome) as [l [screens [Hgen [Hscr ->]]]].
  destruct (trial_screens_kind isInstruction false (fun _ _ => eq_refl)
              (fun _ _ _ _ => eq_refl) o screens l Hscr) as [F1 [F2 [F3 F4]]].
  simpl filter. rewrite !filter_app.
  rewrite (filter_none _ _ F1), (filter_none _ _ F2), (filter_none _ _ F3),
    (filter_none _ _ F4).
  destruct (showInstructions o), (showResults o); reflexivity.
Qed.

Lemma createTimeline_instructions_witness :
  exists tl, snd (createTimeline alwaysHalf (mkOptions 5 5 4 false false)) = Some tl
             /\ filter isInstruction tl = [].
Proof.
  eexists. split; [reflexivity |].
  apply (createTimeline_instructions alwaysHalf (mkOptions 5 5 4 false false)).
  reflexivity.
Defined.

Lemma forEachFrom_phaseNum {A : Type} (f : A -> nat -> Screen) (ph : string)
    (arr : list A) :
  (forall x i, phaseNum (f x i) = Some (ph, (i + 1)%nat)) ->
  forall index,
  map phaseNum (forEachFrom f index arr)
  = map (fun k => Some (ph, k)) (seq (index + 1) (length arr)).
Proof.
  intros Hf. induction arr as [| x arr IH]; intros index; simpl; [reflexivity |].
  rewrite Hf, (IH (S index)). reflexivity.
Qed.

Lemma forEachMixedFrom_phaseNum (arr : list Trial) :
  forall index screens,
  forEachMixedFrom index arr = Some screens ->
  map phaseNum screens
  = map (fun k => Some ("mixed", k)) (seq (index + 1) (length arr)).
Proof.
  induction arr as [| t arr IH]; intros index screens H; simpl in H.
  - injection H as <-. reflexivity.
  - destruct (dimension t); [| discriminate H].
    destruct (forEachMixedFrom (S index) arr) as [r |] eqn:Hr; [| discriminate H].
    injection H as <-. simpl. rewrite (IH (S index) r Hr). reflexivity.
Qed.

(** X20: the trial screens of a timeline come phase by phase, practice,
    colour test, shape test, mixed, and within each phase their recorded
    [trial_num] counts 1, 2, 3, ... up to the number of trials of the
    phase. *)
Theorem createTimeline_trial_numbers (random : nat -> Q) (o : Options)
    (tl : list Screen) (Hsome : snd (createTimeline random o) = Some tl) :
  map phaseNum (filter isTrial tl)
  = numbered "color_practice" (Nat.min (practiceTrials o) 5)
    ++ numbered "color_test" (Nat.min (testTrials o) 5)
    ++ numbered "shape_test" (Nat.min (testTrials o) 5)
    ++ numbered "mixed" (mixedTrials o).
Proof.
  destruct (createTimeline_Some random o tl Hsome) as [l [screens [Hgen [Hscr ->]]]].
  destruct (trial_screens_kind isTrial true (fun _ _ => eq_refl)
              (fun _ _ _ _ => eq_refl) o screens l Hscr) as [F1 [F2 [F3 F4]]].
  simpl filter. rewrite !filter_app.
  rewrite (filter_all _ _ F1), (filter_all _ _ F2), (filter_all _ _ F3),
    (filter_all _ _ F4).
  assert (Hi : forall (b : bool) (x : list Screen),
             Forall (fun s => isTrial s = false) x ->
             filter isTrial (if b then x else []) = []).
  { intros b x Hx. destruct b; [apply filter_none, Hx | reflexivity]. }
  rewrite !Hi by (repeat constructor).
  rewrite app_nil_r. simpl app. rewrite !map_app.
  rewrite (forEachFrom_phaseNum practiceScreen "color_practice") by reflexivity.
  rewrite (forEachFrom_phaseNum _ "color_test") by reflexivity.
  rewrite (forEachFrom_phaseNum _ "shape_test") by reflexivity.
  rewrite (forEachMixedFrom_phaseNum _ _ _ Hscr).
  rewrite !length_firstn, (generated_length _ _ _ Hgen). reflexivity.
Qed.

Lemma createTimeline_trial_numbers_witness :
  exists tl, snd (createTimeline alwaysHalf (mkOptions 9 1 2 true true)) = Some tl
             /\ map phaseNum (filter isTrial tl)
                = [ Some ("color_practice", 1%nat); Some ("color_practice", 2%nat);
                    Some ("color_practice", 3%nat); Some ("color_practice", 4%nat);
                    Some ("color_practice", 5%nat);
                    Some ("color_test", 1%nat); Some ("shape_test", 1%nat);
                    Some ("mixed", 1%nat); Some ("mixed", 2%nat) ].
Proof.
  eexists. split; [reflexivity |].
  apply (createTimeline_trial_numbers alwaysHalf (mkOptions 9 1 2 true true)).
  reflexivity.
Defined.

Lemma fixed_trials_posed :
  Forall (wellPosed "color") COLOR_PRACTICE_TRIALS
  /\ Forall (wellPosed "color") COLOR_TEST_TRIALS
  /\ Forall (wellPosed "shape") SHAPE_TEST_TRIALS.
Proof.
  repeat split; repeat (constructor; [settle_posed |]); constructor.
Qed.

Lemma Forall_firstn_keeps {A : Type} (P : A -> Prop) (l : list A) :
  Forall P l -> forall n, Forall P (firstn n l).
Proof.
  intros H. induction H as [| x l Hx _ IH]; intros [| n]; simpl; constructor; auto.
Qed.

Lemma createTimeline_Forall_coherent (random : nat -> Q) (o : Options) (tl : list Screen)
    (Hsome : snd (createTimeline random o) = Some tl) :
  Forall coherent tl.
Proof.
  destruct (createTimeline_Some random o tl Hsome) as [l [screens [Hgen [Hscr ->]]]].
  destruct fixed_trials_posed as [Hp [Hc Hs]].
  assert (Hinstr : forall (b : bool) (x : list Screen),
             Forall (fun s => isTrial s = false /\ isInstruction s = true) x ->
             Forall coherent (if b then x else [])).
  { intros b x Hx. destruct b; [| constructor].
    eapply Forall_impl; [| exact Hx]. intros s [Ht Hi].
    unfold coherent. unfold isInstruction in Hi.
    destruct (on_load s); try discriminate Hi. exact Ht. }
  constructor; [reflexivity |].
  repeat (apply Forall_app; split).
  - apply Hinstr. repeat constructor.
  - apply forEachFrom_Forall with (Q := wellPosed "color");
      [| apply Forall_firstn_keeps, Hp].
    intros t i Ht. unfold coherent. simpl. repeat split. exact Ht.
  - apply Hinstr. repeat constructor.
  - apply forEachFrom_Forall with (Q := wellPosed "color");
      [| apply Forall_firstn_keeps, Hc].
    intros t i Ht. unfold coherent. simpl. repeat split. exact Ht.
  - apply Hinstr. repeat constructor.
  - apply forEachFrom_Forall with (Q := wellPosed "shape");
      [| apply Forall_firstn_keeps, Hs].
    intros t i Ht. unfold coherent. simpl. repeat split. exact Ht.
  - apply Hinstr. repeat constructor.
  - eapply forEachMixedFrom_Forall
      with (Q := fun t => exists d, dimension t = Some d /\ wellPosed d t);
      [| apply (generated_trials_good random _ _ Hgen) | exact Hscr].
    intros t d i [d' [Hd' Hw]] Hd. rewrite Hd in Hd'. injection Hd' as <-.
    unfold coherent. simpl. repeat split. exact Hw.
  - destruct (showResults o); repeat constructor.
Qed.

(** X21: every trial screen of a timeline is coherent: the [data] it
    records (task, phase, number, dimension, correct response, target
    name), the cue and the three pictures it shows and the arguments its
    [on_load] hands to [setupTrial] all belong to one trial and one
    dimension; that trial has exactly one choice matching the target on
    this dimension, at the index recorded as correct response; and
    feedback is switched on for the practice phase only. *)
Theorem createTimeline_coherent (random : nat -> Q) (o : Options) (tl : list Screen)
    (Hsome : snd (createTimeline random o) = Some tl) :
  Forall coherent tl.
Proof. apply (createTimeline_Forall_coherent random o). exact Hsome. Qed.

Lemma createTimeline_coherent_witness :
  exists tl, snd (createTimeline alwaysHalf defaultOptions) = Some tl
             /\ Forall coherent tl.
Proof.
  eexists. split; [reflexivity |].
  apply (createTimeline_coherent alwaysHalf defaultOptions). reflexivity.
Defined.

(** ** From the welcome screen to the trials *)

Lemma last_toggle (toggles : list bool) :
  forall w,
  fold_left (fun w c => audioToggle_onchange c w) toggles w
  = match toggles with [] => w | _ => Some (last toggles false) end.
Proof.
  induction toggles as [| c toggles IH]; intros w; [reflexivity |].
  simpl fold_left. rewrite IH. destruct toggles; reflexivity.
Qed.

(** X22: when the welcome screen finishes, audio is enabled exactly if the
    checkbox was changed at least once and its last change checked it; the
    same value is recorded in the data, the rest of the state is kept, and
    the temporary window property is deleted, so that a welcome screen
    finished again without touching the checkbox switches audio off. If
    audio ends up disabled, no trial set up afterwards hands anything to
    the synthesiser. *)
Theorem welcome_sets_audio (state : GameState) (toggles : list bool) :
  let w := fold_left (fun w c => audioToggle_onchange c w) toggles None in
  let state' := fst (fst (welcome_on_finish state w)) in
  audio_enabled state' = last toggles false
  /\ snd (fst (welcome_on_finish state w)) = audio_enabled state'
  /\ current_phase state' = current_phase state
  /\ trials_completed state' = trials_completed state
  /\ snd (welcome_on_finish state w) = None
  /\ audio_enabled (fst (fst (welcome_on_finish state'
                                (snd (welcome_on_finish state w))))) = false
  /\ (last toggles false = false ->
      forall hasSpeech trial dimension' withFeedback startTime document events,
        spoken (run state' hasSpeech trial dimension' withFeedback startTime
                  document events) = []).
Proof.
  intros w state'.
  assert (Ha : audio_enabled state' = last toggles false).
  { subst state' w. rewrite last_toggle. destruct toggles as [| c toggles];
      [reflexivity |].
    unfold welcome_on_finish, fst, audio_enabled.
    destruct (last (c :: toggles) false); reflexivity. }
  split; [exact Ha |]. repeat (split; [reflexivity |]).
  intros Hoff hasSpeech trial dimension' withFeedback startTime document events.
  apply run_audio_off. rewrite Ha, Hoff. reflexivity.
Qed.

Lemma firstClick_lt (ncards : nat) (events : list Event) (i : nat) (t : Q) :
  firstClick ncards events = Some (i, t) -> (i < ncards)%nat.
Proof.
  induction events as [| [j now | k now cur] events IH]; simpl; intros H.
  - discriminate H.
  - destruct (j <? ncards)%nat eqn:Hj; [| apply IH, H].
    injection H as <- _. apply Nat.ltb_lt, Hj.
  - apply IH, H.
Qed.

(** X23: on every trial screen of a timeline, whatever the participant
    and the timers do, a reported result names one of the two pictures
    shown and is scored correct exactly when that picture has the same
    colour, or the same shape, as the target, according to the dimension
    the screen cues and records. *)
Theorem timeline_scores_by_cued_attribute (random : nat -> Q) (o : Options)
    (tl : list Screen) (Hsome : snd (createTimeline random o) = Some tl)
    (s : Screen) (trial : Trial) (ph : string) (num : nat) (dim : string) (fb : bool)
    (Hin : In s tl) (Hhook : on_load s = Setup trial ph num dim fb)
    (state : GameState) (hasSpeech : bool) (startTime : Q) (p0 : Page)
    (Hload : loadScreen state hasSpeech startTime s = Some p0)
    (events : list Event) (d : TrialData.t)
    (Hd : In d (finished (fold_left (step state hasSpeech trial fb startTime) events p0))) :
  stimulus s = TrialMarkup (target trial) (left trial) (right trial) (toUpperCase dim)
  /\ exists chosen,
       nth_error [left trial; right trial] (TrialData.response d) = Some chosen
       /\ TrialData.correct d = sameOn dim chosen (target trial).
Proof.
  pose proof (createTimeline_Forall_coherent random o tl Hsome) as Hall.
  rewrite Forall_forall in Hall. specialize (Hall s Hin).
  unfold coherent in Hall. rewrite Hhook in Hall.
  destruct Hall as [_ [Hstim [_ [_ Hposed]]]].
  split; [exact Hstim |].
  unfold loadScreen in Hload. rewrite Hhook, Hstim in Hload. injection Hload as <-.
  change (fold_left (step state hasSpeech trial fb startTime) events
            (setupTrial state hasSpeech dim fb startTime
               (createTrialStimulus (target trial) (left trial) (right trial)
                  (toUpperCase dim))))
    with (run state hasSpeech trial dim fb startTime
            (createTrialStimulus (target trial) (left trial) (right trial)
               (toUpperCase dim)) events) in Hd.
  destruct (reported_payload _ _ _ _ _ _ _ _ d Hd) as [i [t [Hfc [Hresp [Hcor _]]]]].
  apply firstClick_lt in Hfc. simpl in Hfc.
  rewrite Hresp, Hcor.
  destruct Hposed as [[Hl [Hr Hc]] | [Hl [Hr Hc]]]; rewrite Hc;
    destruct i as [| [| i]]; try lia; simpl;
    eexists; (split; [reflexivity |]); simpl; congruence.
Qed.

Lemma timeline_scores_by_cued_attribute_witness :
  let t0 := mkTrial STIMULI.blueTruck STIMULI.blueBall STIMULI.orangeTruck 0
              (Some "color") in
  exists chosen,
    nth_error [left t0; right t0] 0 = Some chosen
    /\ true = sameOn "color" chosen (target t0).
Proof.
  intros t0.
  exact (proj2 (timeline_scores_by_cued_attribute alwaysHalf
                  (mkOptions 0 0 1 false false) _ eq_refl
                  (testScreen t0 "mixed" "color" 0) t0 "mixed" 1 "color" false
                  (or_intror (or_introl eq_refl)) eq_refl
                  resetState false 0 _ eq_refl
                  [Click 0 400] (TrialData.mk 0 true (400 - 0)) (or_introl eq_refl))).
Defined.
